(** * godns: the reconciliation engine, embedded and verified

    A shallow embedding of the Go sources
      - utils.go                      (package godns: IP resolution, notifier)
      - settings.go                   (package godns: configuration records)
      - handler/dnspod/dnspod_handler.go   (package dnspod: the domain loop)
      - handler/cloudflare_handler.go      (package handler: the domain loop)
    together with the parts of the Go standard library they call
    (strings, strconv, net.IP) and of go-simplejson.

    Go strings are byte sequences: [string].  Go [int]/[int64] values are [Z].
    A Go [error] is [option error] ([None] is [nil]).  Everything the program
    does to the outside world (HTTP, SOCKS5, the OS interface table, SMTP,
    the log, sleeping) is recorded in a chronological trace of events, and the
    answers of the outside world come from an oracle that may depend on the
    whole history so far. *)

From Stdlib Require Import ZArith String Ascii List Bool Lia.
From stdpp Require Import base option strings list gmap.

Open Scope Z_scope.

(* ===================================================================== *)
(** * Part 1: the Go standard library used by the program               *)
(* ===================================================================== *)

(** Go [error] values. *)
Inductive error : Type := mkError (msg : string).

Definition errorString (e : error) : string :=
  match e with mkError m => m end.

(** ** package strings *)
Module strings.

(** [bytealg.CountString(s, c)]: the number of bytes of [s] equal to [c],
    counted by a left-to-right loop with accumulator [n]. *)
Fixpoint countLoop (s : string) (c : ascii) (n : Z) : Z :=
  match s with
  | EmptyString => n
  | String a r => countLoop r c (if Ascii.eqb a c then n + 1 else n)
  end.

Definition CountString (s : string) (c : ascii) : Z := countLoop s c 0.

(** [strings.Count(s, substr)] for a separator of exactly one byte, the only
    way the program calls it: Go dispatches to [bytealg.CountString]. *)
Definition Count1 (s : string) (c : ascii) : Z := CountString s c.

(** [trimRightByte(s, c)]: drop bytes equal to [c] from the end while the last
    byte is [c].  Computed from the right end: a byte is kept as soon as
    something is kept after it or it differs from [c]. *)
Fixpoint trimRightByte (s : string) (c : ascii) : string :=
  match s with
  | EmptyString => EmptyString
  | String a r =>
      match trimRightByte r c with
      | EmptyString => if Ascii.eqb a c then EmptyString else String a EmptyString
      | String b r' => String a (String b r')
      end
  end.

(** [trimLeftByte(s, c)]: drop leading bytes equal to [c]. *)
Fixpoint trimLeftByte (s : string) (c : ascii) : string :=
  match s with
  | EmptyString => EmptyString
  | String a r => if Ascii.eqb a c then trimLeftByte r c else String a r
  end.

(** [strings.TrimRight(s, cutset)] and [strings.Trim(s, cutset)] for a cutset
    of one ASCII byte (the program only uses the cutset "\n"). *)
Definition TrimRight1 (s : string) (c : ascii) : string := trimRightByte s c.
Definition Trim1 (s : string) (c : ascii) : string :=
  trimLeftByte (trimRightByte s c) c.

(** [len(s)] *)
Definition len (s : string) : Z := Z.of_nat (String.length s).

End strings.

(** The newline byte, Go's ['\n']. *)
Definition LF : ascii := Ascii.ascii_of_nat 10.

(** ** package strconv *)
Module strconv.

Definition maxUint64 : Z := 2 ^ 64 - 1.

Definition digitVal (a : ascii) : option Z :=
  let n := Z.of_nat (nat_of_ascii a) in
  if (48 <=? n) && (n <=? 57) then Some (n - 48) else None.

Inductive numError := ErrSyntax | ErrRange.

(** The digit loop of [ParseUint(s, 10, 64)]: [n] is the value so far.  A byte
    that is not a decimal digit ends the loop with a syntax error and value
    0; an overflow ends it at once with a range error and the maximal
    value. *)
Fixpoint parseUintLoop (s : string) (n : Z) : Z * option numError :=
  match s with
  | EmptyString => (n, None)
  | String a r =>
      match digitVal a with
      | None => (0, Some ErrSyntax)
      | Some d =>
          if maxUint64 / 10 + 1 <=? n then (maxUint64, Some ErrRange)
          else
            let n1 := n * 10 + d in
            if maxUint64 <? n1 then (maxUint64, Some ErrRange)
            else parseUintLoop r n1
      end
  end.

Definition ParseUint (s : string) : Z * option numError :=
  match s with
  | EmptyString => (0, Some ErrSyntax)
  | _ => parseUintLoop s 0
  end.

(** [strconv.ParseInt(s, 10, 64)] *)
Definition ParseInt (s : string) : Z * option numError :=
  match s with
  | EmptyString => (0, Some ErrSyntax)
  | String a r =>
      let neg := Ascii.eqb a "-" in
      let s1 := if Ascii.eqb a "+" then r else if neg then r else s in
      let '(un, err) := ParseUint s1 in
      match err with
      | Some ErrSyntax => (0, err)
      | _ =>
          let cutoff := 2 ^ 63 in
          if negb neg && (cutoff <=? un) then (cutoff - 1, Some ErrRange)
          else if neg && (cutoff <? un) then (- cutoff, Some ErrRange)
          else ((if neg then - un else un), None)
      end
  end.

(** One decimal digit as a byte. *)
Definition digitChar (d : Z) : ascii := ascii_of_nat (Z.to_nat (48 + d)).

(** Decimal digits of a non-negative number, most significant first. *)
Fixpoint uitoaLoop (fuel : nat) (n : Z) (acc : string) : string :=
  match fuel with
  | O => acc
  | S f =>
      let acc' := String (digitChar (n mod 10)) acc in
      if n <? 10 then acc' else uitoaLoop f (n / 10) acc'
  end.

(** [uitoa(n)] / [strconv.FormatUint(n, 10)]; 20 digits suffice for 64 bits. *)
Definition uitoa (n : Z) : string := uitoaLoop 20 n EmptyString.

(** [strconv.FormatInt(i, 10)] *)
Definition FormatInt (i : Z) : string :=
  if i <? 0 then String "-" (uitoa (- i)) else uitoa i.

End strconv.

(** ** package net: IP addresses *)
Module net.

(** [net.IP] is a byte slice; [None] is the nil slice.  Bytes are numbers
    in [0, 256). *)
Definition IP : Type := option (list Z).

Definition bytes (ip : IP) : list Z :=
  match ip with
  | Some p => p
  | None => []
  end.
Definition len (ip : IP) : Z := Z.of_nat (length (bytes ip)).

(** [p[i]]; every use below is guarded by a length test, as in Go. *)
Definition at_ (p : list Z) (i : nat) : Z := nth i p 0.

Definition IPv4len : Z := 4.
Definition IPv6len : Z := 16.

Definition v4InV6Prefix : list Z := [0; 0; 0; 0; 0; 0; 0; 0; 0; 0; 255; 255].

(** [net.IPv4(a, b, c, d)]: the 16-byte form. *)
Definition IPv4 (a b c d : Z) : IP := Some (v4InV6Prefix ++ [a; b; c; d]).

Definition IPv4bcast : IP := IPv4 255 255 255 255.
Definition IPv4zero : IP := IPv4 0 0 0 0.
Definition IPv6unspecified : IP := Some (replicate 16 0).
Definition IPv6loopback : IP := Some (replicate 15 0 ++ [1]).

(** [bytealg.Equal] on byte slices. *)
Definition bytesEqual (a b : list Z) : bool := bool_decide (a = b).

Definition isZeros (p : list Z) : bool := forallb (Z.eqb 0) p.

(** [ip.To4()]: the 4-byte form, or nil when [ip] is not an IPv4 address. *)
Definition To4 (ip : IP) : IP :=
  let p := bytes ip in
  if len ip =? IPv4len then ip
  else if (len ip =? IPv6len) && isZeros (take 10 p)
            && (at_ p 10 =? 255) && (at_ p 11 =? 255)
       then Some (drop 12 p)
       else None.

(** [ip.Equal(x)]: an IPv4 address and its IPv6 form are equal. *)
Definition Equal (ip x : IP) : bool :=
  let p := bytes ip in
  let q := bytes x in
  if len ip =? len x then bytesEqual p q
  else if (len ip =? IPv4len) && (len x =? IPv6len)
       then bytesEqual (take 12 q) v4InV6Prefix && bytesEqual p (drop 12 q)
  else if (len ip =? IPv6len) && (len x =? IPv4len)
       then bytesEqual (take 12 p) v4InV6Prefix && bytesEqual (drop 12 p) q
  else false.

Definition IsUnspecified (ip : IP) : bool :=
  Equal ip IPv4zero || Equal ip IPv6unspecified.

Definition IsLoopback (ip : IP) : bool :=
  match To4 ip with
  | Some ip4 => at_ ip4 0 =? 127
  | None => Equal ip IPv6loopback
  end.

Definition IsMulticast (ip : IP) : bool :=
  match To4 ip with
  | Some ip4 => Z.land (at_ ip4 0) 240 =? 224
  | None => (len ip =? IPv6len) && (at_ (bytes ip) 0 =? 255)
  end.

Definition IsInterfaceLocalMulticast (ip : IP) : bool :=
  (len ip =? IPv6len) && (at_ (bytes ip) 0 =? 255)
    && (Z.land (at_ (bytes ip) 1) 15 =? 1).

Definition IsLinkLocalMulticast (ip : IP) : bool :=
  match To4 ip with
  | Some ip4 => (at_ ip4 0 =? 224) && (at_ ip4 1 =? 0) && (at_ ip4 2 =? 0)
  | None => (len ip =? IPv6len) && (at_ (bytes ip) 0 =? 255)
              && (Z.land (at_ (bytes ip) 1) 15 =? 2)
  end.

Definition IsLinkLocalUnicast (ip : IP) : bool :=
  match To4 ip with
  | Some ip4 => (at_ ip4 0 =? 169) && (at_ ip4 1 =? 254)
  | None => (len ip =? IPv6len) && (at_ (bytes ip) 0 =? 254)
              && (Z.land (at_ (bytes ip) 1) 192 =? 128)
  end.

Definition IsGlobalUnicast (ip : IP) : bool :=
  ((len ip =? IPv4len) || (len ip =? IPv6len))
    && negb (Equal ip IPv4bcast)
    && negb (IsUnspecified ip)
    && negb (IsLoopback ip)
    && negb (IsMulticast ip)
    && negb (IsLinkLocalUnicast ip).

(** *** [ip.String()] *)

Definition hexDigit (v : Z) : ascii :=
  nth (Z.to_nat v)
    ["0"; "1"; "2"; "3"; "4"; "5"; "6"; "7"; "8"; "9"; "a"; "b"; "c"; "d"; "e"; "f"]%char
    "0"%char.

(** [appendHex(dst, i)]: lower-case hexadecimal without leading zeros.  The
    loop runs [j] from 7 down to 0; [fuel] is [j + 1]. *)
Fixpoint appendHexLoop (fuel : nat) (dst : string) (i : Z) : string :=
  match fuel with
  | O => dst
  | S j =>
      let v := Z.shiftr i (Z.of_nat j * 4) in
      appendHexLoop j
        (if 0 <? v then dst +:+ String (hexDigit (Z.land v 15)) "" else dst) i
  end.

Definition appendHex (dst : string) (i : Z) : string :=
  if i =? 0 then dst +:+ "0" else appendHexLoop 8 dst i.

(** [hexString(b)]: two hexadecimal digits per byte. *)
Fixpoint hexString (b : list Z) : string :=
  match b with
  | [] => ""
  | tn :: r =>
      String (hexDigit (Z.shiftr tn 4)) (String (hexDigit (Z.land tn 15)) (hexString r))
  end.

(** The 16-bit group at byte offset [i]. *)
Definition group (p : list Z) (i : nat) : Z :=
  Z.lor (Z.shiftl (at_ p i) 8) (at_ p (i + 1)).

(** Inner loop of the zero-run search: from [j], step over pairs of zero
    bytes; returns the first offset that is not the start of a zero pair. *)
Fixpoint skipZeros (fuel : nat) (p : list Z) (j : nat) : nat :=
  match fuel with
  | O => j
  | S f =>
      if (j <? 16)%nat && (at_ p j =? 0) && (at_ p (j + 1) =? 0)
      then skipZeros f p (j + 2)
      else j
  end.

(** Outer loop: [(e0, e1)] is the longest run of zero groups found so far
    ([-1, -1] when none); [i] is advanced by 2 each round, after having been
    moved to the end of a run that was recorded. *)
Fixpoint findRun (fuel : nat) (p : list Z) (i : nat) (e0 e1 : Z) : Z * Z :=
  match fuel with
  | O => (e0, e1)
  | S f =>
      if (i <? 16)%nat then
        let j := skipZeros 8 p i in
        if (i <? j)%nat && (e1 - e0 <? Z.of_nat j - Z.of_nat i)
        then findRun f p (j + 2) (Z.of_nat i) (Z.of_nat j)
        else findRun f p (i + 2) e0 e1
      else (e0, e1)
  end.

(** The printing loop: "::" in place of the run, ":" between groups. *)
Fixpoint printGroups (fuel : nat) (p : list Z) (e0 e1 : Z) (i : nat) (b : string)
  : string :=
  match fuel with
  | O => b
  | S f =>
      if (i <? 16)%nat then
        if Z.of_nat i =? e0 then
          let b1 := b +:+ "::" in
          let i1 := Z.to_nat e1 in
          if (16 <=? i1)%nat then b1
          else printGroups f p e0 e1 (i1 + 2) (appendHex b1 (group p i1))
        else
          let b1 := if (0 <? i)%nat then b +:+ ":" else b in
          printGroups f p e0 e1 (i + 2) (appendHex b1 (group p i))
      else b
  end.

Definition String_ (ip : IP) : string :=
  let p := bytes ip in
  if len ip =? 0 then "<nil>"
  else
    match To4 ip with
    | Some [a; b; c; d] =>
        strconv.uitoa a +:+ "." +:+ strconv.uitoa b +:+ "."
          +:+ strconv.uitoa c +:+ "." +:+ strconv.uitoa d
    | _ =>
        if negb (len ip =? IPv6len) then "?" +:+ hexString p
        else
          let '(e0, e1) := findRun 8 p 0 (-1) (-1) in
          let '(e0, e1) := if e1 - e0 <=? 2 then (-1, -1) else (e0, e1) in
          printGroups 8 p e0 e1 0 ""
    end.

(** [net.Addr] values returned by [Interface.Addrs]: the program inspects
    the two concrete types below and ignores any other. *)
Inductive Addr : Type :=
| IPNet (ip : IP) (mask : list Z)
| IPAddr (ip : IP) (zone : string)
| OtherAddr (network text : string).

Record Interface : Type := mkInterface { Index : Z; Name : string }.

End net.


(** ** go-simplejson: decoded JSON values

    [simplejson.NewJson] decodes with [UseNumber], so a value is one of nil,
    bool, [json.Number] (the literal text of the number), string,
    [[]interface{}] and [map[string]interface{}].  A Go map is represented by
    its list of bindings; a key is looked up from the front. *)
#[warnings="-register-all"]
Inductive JSON : Type :=
| JNull
| JBool (b : bool)
| JNumber (lit : string)
| JString (s : string)
| JArray (l : list JSON)
| JObject (m : list (string * JSON)).

Module simplejson.

(** [m[key]] on a [map[string]interface{}]: nil when the key is absent. *)
Fixpoint mapIndex (m : list (string * JSON)) (key : string) : JSON :=
  match m with
  | [] => JNull
  | (k, v) :: r => if String.eqb k key then v else mapIndex r key
  end.

(** [j.Get(key)]: the value bound to [key] when [j] holds a map that has
    the key, and a [Json] holding nil otherwise. *)
Definition Get (j : JSON) (key : string) : JSON :=
  match j with
  | JObject m => mapIndex m key
  | _ => JNull
  end.

(** [j.MustString()] *)
Definition MustString (j : JSON) : string :=
  match j with
  | JString s => s
  | _ => ""
  end.

(** [j.Array()] *)
Definition Array (j : JSON) : list JSON * option error :=
  match j with
  | JArray a => (a, None)
  | _ => ([], Some (mkError "type assertion to []interface{} failed"))
  end.

End simplejson.

(** [json.Number.Int64()] *)
Definition Number_Int64 (lit : string) : Z * option strconv.numError :=
  strconv.ParseInt lit.

(* ===================================================================== *)
(** * Part 2: the outside world and the effect monad                    *)
(* ===================================================================== *)

(** settings.go *)
Record Domain : Type := mkDomain {
  DomainName : string;
  SubDomains : list string
}.

Record Notify : Type := mkNotify {
  Enabled : bool;
  SMTPServer : string;
  SMTPUsername : string;
  SMTPPassword : string;
  SMTPPort : Z;
  SendTo : string
}.

Record Settings : Type := mkSettings {
  Provider : string;
  Email : string;
  Password : string;
  LoginToken : string;
  Domains : list Domain;
  IPUrl : string;
  Interval : Z;
  UserAgent : string;
  LogPath : string;
  Socks5Proxy : string;
  Notify_ : Notify;
  IPInterface : string
}.

(** [url.Values], kept as the list of added pairs in order of addition. *)
Definition Values : Type := list (string * string).

Definition Values_Add (v : Values) (key value : string) : Values := v ++ [(key, value)].

Fixpoint Values_Get (v : Values) (key : string) : string :=
  match v with
  | [] => ""
  | (k, x) :: r => if String.eqb k key then x else Values_Get r key
  end.

(** handler/cloudflare_handler.go: the record and zone structs. *)
Record DNSRecord : Type := mkDNSRecord {
  rec_ID : string;
  rec_IP : string;
  rec_Name : string;
  rec_Proxied : bool;
  rec_Type : string;
  rec_ZoneID : string
}.

Record Zone : Type := mkZone { zone_ID : string; zone_Name : string }.

Record ZoneResponse : Type := mkZoneResponse {
  zr_Zones : list Zone;
  zr_Success : bool
}.

Record DNSRecordResponse : Type := mkDNSRecordResponse {
  rr_Records : list DNSRecord;
  rr_Success : bool
}.

Record DNSRecordUpdateResponse : Type := mkDNSRecordUpdateResponse {
  ur_Record : DNSRecord;
  ur_Success : bool
}.

(** The body of an outgoing HTTP request. *)
Inductive Body : Type :=
| NoBody
| FormBody (form : Values)          (* values.Encode() of these pairs *)
| JSONBody (record : DNSRecord).    (* json.Marshal of this record *)

Record Request : Type := mkRequest {
  req_Method : string;
  req_URL : string;
  req_Header : list (string * string);
  req_Body : Body
}.

(** The message handed to gomail, with the dialer's parameters. *)
Record Mail : Type := mkMail {
  mail_From : string;
  mail_To : string;
  mail_Subject : string;
  mail_Body : string;
  mail_Server : string;
  mail_Port : Z;
  mail_Username : string;
  mail_Password : string
}.

(** What the program does, in order. *)
Inductive Event : Type :=
| EvLog (text : string)
| EvSocks5 (proxy : string) (res : option error)
| EvHttpGet (url : string) (res : string + error)
| EvHttpDo (req : Request) (res : string + error)
| EvInterfaceByName (name : string) (res : net.Interface + error)
| EvInterfaceAddrs (iface : net.Interface) (res : list net.Addr + error)
| EvDialAndSend (m : Mail) (res : option error)
| EvSleep (nanoseconds : Z)
| EvPanicChan (d : Domain).

Definition Trace : Type := list Event.

(** The outside world: each answer may depend on everything that happened
    before.  The decoders and the two declarations of package godns that the
    sources here use without defining ([mailTemplate] through [buildTemplate],
    and [INTERVAL]) are part of it. *)
Record World : Type := mkWorld {
  (* proxy.SOCKS5("tcp", addr, nil, proxy.Direct) *)
  w_socks5 : Trace -> string -> option error;
  (* client.Get(url): the body read, or the transport error *)
  w_httpGet : Trace -> string -> string + error;
  (* client.Do(req) followed by ioutil.ReadAll *)
  w_httpDo : Trace -> Request -> string + error;
  (* net.InterfaceByName and Interface.Addrs *)
  w_interfaceByName : Trace -> string -> net.Interface + error;
  w_interfaceAddrs : Trace -> net.Interface -> list net.Addr + error;
  (* gomail: Dialer.DialAndSend *)
  w_dialAndSend : Trace -> Mail -> option error;
  (* simplejson.NewJson *)
  w_NewJson : string -> JSON + error;
  (* json.Unmarshal into the Cloudflare response structs *)
  w_decodeZones : string -> ZoneResponse + error;
  w_decodeRecords : string -> DNSRecordResponse + error;
  w_decodeUpdate : string -> DNSRecordUpdateResponse + error;
  (* buildTemplate(currentIP, domain), rendering godns.mailTemplate *)
  w_buildTemplate : string -> string -> string;
  (* godns.INTERVAL *)
  w_INTERVAL : Z
}.

(** A computation either returns or panics; the trace is threaded through. *)
Inductive Outcome (A : Type) : Type :=
| Ok (a : A)
| Panic (v : string).
Arguments Ok {A} a.
Arguments Panic {A} v.

Definition M (A : Type) : Type := Trace -> Outcome A * Trace.

#[export] Instance M_ret : MRet M := fun A a tr => (Ok a, tr).

#[export] Instance M_bind : MBind M := fun A B f m tr =>
  match m tr with
  | (Ok a, tr') => f a tr'
  | (Panic v, tr') => (Panic v, tr')
  end.

Definition emit (e : Event) : M unit := fun tr => (Ok tt, tr ++ [e]).
Definition panic {A} (v : string) : M A := fun tr => (Panic v, tr).
Definition log (text : string) : M unit := emit (EvLog text).

(** Ask the world, and record the question with its answer. *)
Definition ask {R} (q : Trace -> R) (ev : R -> Event) : M R :=
  fun tr => let r := q tr in (Ok r, tr ++ [ev r]).

(** [for _, x := range xs { body(x) }] *)
Fixpoint forRange {A} (xs : list A) (body : A -> M unit) : M unit :=
  match xs with
  | [] => mret tt
  | x :: r => _ ← body x; forRange r body
  end.

(** 64-bit signed wrap-around, for [time.Duration] products. *)
Definition wrap64 (z : Z) : Z := (z + 2 ^ 63) mod 2 ^ 64 - 2 ^ 63.

(* ===================================================================== *)
(** * Part 3: package godns (utils.go)                                  *)
(* ===================================================================== *)
Module godns.

(** PanicMax is the max allowed panic times *)
Definition PanicMax : Z := 5.

Definition isIPv4 (ip : string) : bool := strings.Count1 ip ":" <? 2.

(** The test applied to one address in the loop of [GetIPFromInterface]
    ([true]: the [continue] is not taken). *)
Definition passesClassFilter (ip : net.IP) : bool :=
  net.IsGlobalUnicast ip
    && negb (net.IsUnspecified ip
             || net.IsMulticast ip
             || net.IsLoopback ip
             || net.IsLinkLocalUnicast ip
             || net.IsLinkLocalMulticast ip
             || net.IsInterfaceLocalMulticast ip).

(** The type switch at the head of the loop body. *)
Definition addrIP (addr : net.Addr) : net.IP :=
  match addr with
  | net.IPNet ip _ => ip
  | net.IPAddr ip _ => ip
  | net.OtherAddr _ _ => None
  end.

(** The [for _, addr := range addrs] loop with the final [return]. *)
Fixpoint scanAddrs (IPInterface : string) (addrs : list net.Addr)
  : string * option error :=
  match addrs with
  | [] => ("", Some (mkError ("can't get a vaild address from " +:+ IPInterface)))
  | addr :: rest =>
      match addrIP addr with
      | None => scanAddrs IPInterface rest
      | Some p =>
          let ip : net.IP := Some p in
          if negb (passesClassFilter ip) then scanAddrs IPInterface rest
          else if negb (isIPv4 (net.String_ ip)) then scanAddrs IPInterface rest
          else (net.String_ ip, None)
      end
  end.

Section WithWorld.
Context (W : World).

(** GetIPFromInterface gets IP address from the specific interface *)
Definition GetIPFromInterface (configuration : Settings) : M (string * option error) :=
  let name := IPInterface configuration in
  r ← ask (fun tr => w_interfaceByName W tr name) (EvInterfaceByName name);
  match r with
  | inr err =>
      _ ← log ("can't get network device " +:+ name +:+ ": " +:+ errorString err);
      mret ("", Some err)
  | inl ifaces =>
      r' ← ask (fun tr => w_interfaceAddrs W tr ifaces) (EvInterfaceAddrs ifaces);
      match r' with
      | inr err =>
          _ ← log ("can't get address from " +:+ name +:+ ": " +:+ errorString err);
          mret ("", Some err)
      | inl addrs => mret (scanAddrs name addrs)
      end
  end.

(** GetHttpClient creates the HTTP client and return it; [false] is the
    nil client. *)
Definition GetHttpClient (configuration : Settings) : M bool :=
  if negb (String.eqb (Socks5Proxy configuration) "") then
    _ ← log ("use socks5 proxy:" +:+ Socks5Proxy configuration);
    r ← ask (fun tr => w_socks5 W tr (Socks5Proxy configuration))
            (EvSocks5 (Socks5Proxy configuration));
    match r with
    | Some err =>
        _ ← log ("can't connect to the proxy: " +:+ errorString err);
        mret false
    | None => mret true
    end
  else mret true.

(** GetIPOnline gets public IP from internet *)
Definition GetIPOnline (configuration : Settings) : M (string * option error) :=
  proxyErr ←
    (if negb (String.eqb (Socks5Proxy configuration) "") then
       _ ← log ("use socks5 proxy:" +:+ Socks5Proxy configuration);
       r ← ask (fun tr => w_socks5 W tr (Socks5Proxy configuration))
               (EvSocks5 (Socks5Proxy configuration));
       match r with
       | Some err =>
           _ ← log ("can't connect to the proxy: " +:+ errorString err);
           mret (Some err)
       | None => mret None
       end
     else mret None);
  match proxyErr with
  | Some err => mret ("", Some err)
  | None =>
      r ← ask (fun tr => w_httpGet W tr (IPUrl configuration))
              (EvHttpGet (IPUrl configuration));
      match r with
      | inr err =>
          _ ← log "Cannot get IP...";
          mret ("", Some err)
      | inl body => mret (strings.Trim1 body LF, None)
      end
  end.

(** GetCurrentIP gets an IP from either internet or specific interface,
    depending on configuration.

    The function-level [var err error] is never assigned: both [ip, err :=]
    inside the [if] blocks declare new variables.  The final
    [return "", err] therefore returns that outer variable, which is
    [outerErr] below. *)
Definition GetCurrentIP (configuration : Settings) : M (string * option error) :=
  let outerErr : option error := None in
  viaURL ←
    (if negb (String.eqb (IPUrl configuration) "") then
       '(ip, err) ← GetIPOnline configuration;
       match err with
       | Some _ =>
           _ ← log "get ip online failed. Fallback to get ip from interface if possible.";
           mret None
       | None => mret (Some ip)
       end
     else mret None);
  match viaURL with
  | Some ip => mret (ip, None)
  | None =>
      viaIface ←
        (if negb (String.eqb (IPInterface configuration) "") then
           '(ip, err) ← GetIPFromInterface configuration;
           match err with
           | Some _ =>
               _ ← log "get ip from interface failed. There is no more ways to try.";
               mret None
           | None => mret (Some ip)
           end
         else mret None);
      match viaIface with
      | Some ip => mret (ip, None)
      | None => mret ("", outerErr)
      end
  end.

(** SendNotify sends mail notify if IP is changed *)
Definition SendNotify (configuration : Settings) (domain currentIP : string)
  : M (option error) :=
  let n := Notify_ configuration in
  _ ← log ("currentIP: " +:+ currentIP);
  _ ← log ("domain: " +:+ domain);
  let m := {| mail_From := SMTPUsername n;
              mail_To := SendTo n;
              mail_Subject := "GoDNS Notification";
              mail_Body := w_buildTemplate W currentIP domain;
              mail_Server := SMTPServer n;
              mail_Port := SMTPPort n;
              mail_Username := SMTPUsername n;
              mail_Password := SMTPPassword n |} in
  r ← ask (fun tr => w_dialAndSend W tr m) (EvDialAndSend m);
  match r with
  | Some err =>
      _ ← log ("Send email notification with error: " +:+ errorString err);
      mret (Some err)
  | None => mret None
  end.

End WithWorld.

End godns.

(* ===================================================================== *)
(** * Part 4: package dnspod (handler/dnspod/dnspod_handler.go)         *)
(* ===================================================================== *)
Module dnspod.

(** Handler struct definition *)
Record Handler : Type := mkHandler {
  Configuration : Settings;
  API : string
}.

(** The comparison against the locally cached IP: [currentIP == lastIP]. *)
Definition sameAsCached (currentIP lastIP : string) : bool :=
  String.eqb currentIP lastIP.

(** The comparison against the value of the remote record:
    [len(ip) > 0 && TrimRight(currentIP, "\n") != TrimRight(ip, "\n")]. *)
Definition recordDiffers (currentIP ip : string) : bool :=
  (0 <? strings.len ip)
    && negb (String.eqb (strings.TrimRight1 currentIP LF) (strings.TrimRight1 ip LF)).

(** [ret, _ = t.Int64()] under [switch t := id.(type) { case json.Number: }] *)
Definition idToInt64 (id : JSON) (ret : Z) : Z :=
  match id with
  | JNumber lit => fst (Number_Int64 lit)
  | _ => ret
  end.

(** The [for _, d := range domains] loop of [GetDomain]; [ret] is the
    variable of that name.  [d.(map[string]interface{})] panics on any
    element that is not an object. *)
Fixpoint scanDomains (name : string) (domains : list JSON) (ret : Z) : M Z :=
  match domains with
  | [] => mret ret
  | d :: rest =>
      match d with
      | JObject m =>
          match simplejson.mapIndex m "name" with
          | JString n =>
              if String.eqb n name
              then mret (idToInt64 (simplejson.mapIndex m "id") ret)
              else scanDomains name rest ret
          | _ => scanDomains name rest ret
          end
      | _ => panic "interface conversion: interface {} is not map[string]interface {}"
      end
  end.

(** The [for _, d := range records] loop of [GetSubDomain]; the two type
    assertions [.(string)] panic when the field is not a string. *)
Fixpoint scanRecords (name : string) (records : list JSON) (ret ip : string)
  : M (string * string) :=
  match records with
  | [] => mret (ret, ip)
  | d :: rest =>
      match d with
      | JObject m =>
          match simplejson.mapIndex m "name" with
          | JString n =>
              if String.eqb n name then
                match simplejson.mapIndex m "id", simplejson.mapIndex m "value" with
                | JString id, JString value => mret (id, value)
                | _, _ => panic "interface conversion: interface {} is not string"
                end
              else scanRecords name rest ret ip
          | _ => scanRecords name rest ret ip
          end
      | _ => panic "interface conversion: interface {} is not map[string]interface {}"
      end
  end.

Section WithWorld.
Context (W : World) (handler : Handler).

(** GenerateHeader generates the request header for DNSPod API.  Go ranges
    over the keys of [content] in no fixed order; here they are taken in
    the order of their first addition ([Values.Encode] sorts by key before
    sending, so the order is not observable). *)
Definition GenerateHeader (content : Values) : Values :=
  let header : Values :=
    if negb (String.eqb (LoginToken (Configuration handler)) "")
    then Values_Add [] "login_token" (LoginToken (Configuration handler))
    else [] in
  let header := Values_Add header "format" "json" in
  let header := Values_Add header "lang" "en" in
  let header := Values_Add header "error_on_empty" "no" in
  fold_left (fun h k => Values_Add h k (Values_Get content k))
            (remove_dups (map fst content)) header.

(** PostData post data and invoke DNSPod API.  [http.NewRequest] is taken
    to succeed: with the method POST it fails only on a URL that cannot be
    parsed, and the nil request would then make [req.Header.Set] panic. *)
Definition PostData (url : string) (content : Values) : M (string * option error) :=
  client ← godns.GetHttpClient W (Configuration handler);
  if negb client then mret ("", Some (mkError "failed to create HTTP client"))
  else
    let values := GenerateHeader content in
    let req := {| req_Method := "POST";
                  req_URL := API handler +:+ url;
                  req_Header := [("Content-Type", "application/x-www-form-urlencoded");
                                 ("User-Agent", "GoDNS/0.1 ()")];
                  req_Body := FormBody values |} in
    r ← ask (fun tr => w_httpDo W tr req) (EvHttpDo req);
    match r with
    | inr err =>
        _ ← log "Post failed...";
        _ ← log (errorString err);
        mret ("", Some err)
    | inl resp => mret (resp, None)
    end.

Definition statusCode (sjson : JSON) : string :=
  simplejson.MustString (simplejson.Get (simplejson.Get sjson "status") "code").

(** GetDomain returns specific domain by name *)
Definition GetDomain (name : string) : M Z :=
  let values := Values_Add [] "type" "all" in
  let values := Values_Add values "offset" "0" in
  let values := Values_Add values "length" "20" in
  '(response, err) ← PostData "/Domain.List" values;
  match err with
  | Some _ =>
      _ ← log "Failed to get domain list...";
      mret (-1)
  | None =>
      match w_NewJson W response with
      | inr parseErr =>
          _ ← log (errorString parseErr);
          mret (-1)
      | inl sjson =>
          if String.eqb (statusCode sjson) "1" then
            let domains := fst (simplejson.Array (simplejson.Get sjson "domains")) in
            ret ← scanDomains name domains 0;
            _ ← (if (length domains =? 0)%nat then log "domains slice is empty."
                 else mret tt);
            mret ret
          else
            _ ← log ("get_domain:status code: " +:+ statusCode sjson);
            mret 0
      end
  end.

(** GetSubDomain returns subdomain by domain id *)
Definition GetSubDomain (domainID : Z) (name : string) : M (string * string) :=
  _ ← log ("debug: " +:+ strconv.FormatInt domainID +:+ " " +:+ name);
  let value := Values_Add [] "domain_id" (strconv.FormatInt domainID) in
  let value := Values_Add value "offset" "0" in
  let value := Values_Add value "length" "1" in
  let value := Values_Add value "sub_domain" name in
  '(response, err) ← PostData "/Record.List" value;
  match err with
  | Some _ =>
      _ ← log "Failed to get domain list";
      mret ("", "")
  | None =>
      match w_NewJson W response with
      | inr parseErr =>
          _ ← log (errorString parseErr);
          mret ("", "")
      | inl sjson =>
          if String.eqb (statusCode sjson) "1" then
            let records := fst (simplejson.Array (simplejson.Get sjson "records")) in
            r ← scanRecords name records "" "";
            _ ← (if (length records =? 0)%nat then log "records slice is empty."
                 else mret tt);
            mret r
          else
            _ ← log ("get_subdomain:status code: " +:+ statusCode sjson);
            mret ("", "")
      end
  end.

(** UpdateIP update subdomain with current IP *)
Definition UpdateIP (domainID : Z) (subDomainID subDomainName ip : string) : M unit :=
  let value := Values_Add [] "domain_id" (strconv.FormatInt domainID) in
  let value := Values_Add value "record_id" subDomainID in
  let value := Values_Add value "sub_domain" subDomainName in
  let value := Values_Add value "record_type" "A" in
  let value := Values_Add value "record_line" "默认" in
  let value := Values_Add value "value" ip in
  '(response, err) ← PostData "/Record.Modify" value;
  match err with
  | Some e =>
      _ ← log "Failed to update record to new IP!";
      log (errorString e)
  | None =>
      match w_NewJson W response with
      | inr parseErr => log (errorString parseErr)
      | inl sjson =>
          if String.eqb (statusCode sjson) "1" then log "New IP updated!"
          else mret tt
      end
  end.

Section Loop.
Context (domain : Domain).

(** The body of [for _, subDomain := range domain.SubDomains]. *)
Definition subDomainBody (domainID : Z) (currentIP subDomain : string) : M unit :=
  let fqdn := subDomain +:+ "." +:+ DomainName domain in
  '(subDomainID, ip) ← GetSubDomain domainID subDomain;
  if String.eqb subDomainID "" || String.eqb ip "" then
    log ("Domain or subdomain not configured yet. domain: " +:+ fqdn
         +:+ " subDomainID: " +:+ subDomainID +:+ " ip: " +:+ ip)
  else if recordDiffers currentIP ip then
    _ ← log (fqdn +:+ " Start to update record IP...");
    _ ← UpdateIP domainID subDomainID subDomain currentIP;
    if Enabled (Notify_ (Configuration handler)) then
      _ ← log ("Sending notification to:" +:+ SendTo (Notify_ (Configuration handler)));
      err ← godns.SendNotify W (Configuration handler) fqdn currentIP;
      match err with
      | Some _ => log "Failed to send notification"
      | None => mret tt
      end
    else mret tt
  else
    log (fqdn +:+ " Current IP is same as domain IP, no need to update...").

(** The tail of the outer loop body: log and sleep. *)
Definition sleepInterval : M unit :=
  let interval := Interval (Configuration handler) in
  _ ← log ("Going to sleep, will start next checking in "
           +:+ strconv.FormatInt interval +:+ " seconds...");
  emit (EvSleep (wrap64 (1000000000 * wrap64 interval))).

(** One round of the outer [for] loop.  The argument is the value of
    the local variable [lastIP] at the head of the round, the result its
    value at the end.  The two [continue] statements end the round
    without reaching the sleep. *)
Definition loopBody (lastIP : string) : M string :=
  _ ← log ("Checking IP for domain " +:+ DomainName domain);
  domainID ← GetDomain (DomainName domain);
  if domainID =? -1 then mret lastIP
  else
    '(currentIP, err) ← godns.GetCurrentIP W (Configuration handler);
    match err with
    | Some e =>
        _ ← log ("get_currentIP: " +:+ errorString e);
        mret lastIP
    | None =>
        _ ← log ("currentIP is: " +:+ currentIP);
        lastIP' ←
          (if sameAsCached currentIP lastIP then
             _ ← log "IP is the same as cached one. Skip update.";
             mret lastIP
           else
             let lastIP := currentIP in
             _ ← forRange (SubDomains domain) (subDomainBody domainID currentIP);
             mret lastIP);
        _ ← sleepInterval;
        mret lastIP'
    end.

(** [rounds] rounds of the outer loop, starting with [lastIP]. *)
Fixpoint loopRounds (rounds : nat) (lastIP : string) : M string :=
  match rounds with
  | O => mret lastIP
  | S k => lastIP' ← loopBody lastIP; loopRounds k lastIP'
  end.

(** How a run of the loop stands after a number of rounds: still
    inside the [for], or ended by a panic that the deferred function
    recovered and reported on [panicChan]. *)
Inductive LoopStatus : Type :=
| Looping (lastIP : string)
| Recovered (v : string).

(** DomainLoop the main logic loop, observed for [rounds] rounds. *)
Definition DomainLoop (rounds : nat) (tr : Trace) : LoopStatus * Trace :=
  match loopRounds rounds "" tr with
  | (Ok lastIP, tr') => (Looping lastIP, tr')
  | (Panic v, tr') =>
      (Recovered v, tr' ++ [EvLog ("Recovered in " +:+ v); EvPanicChan domain])
  end.

End Loop.
End WithWorld.

End dnspod.

(* ===================================================================== *)
(** * Part 5: package handler (handler/cloudflare_handler.go)           *)
(* ===================================================================== *)
Module cloudflare.

(** CloudflareHandler struct definition *)
Record CloudflareHandler : Type := mkCloudflareHandler {
  Configuration : Settings;
  API : string
}.

(** Update DNSRecord IP *)
Definition SetIP (r : DNSRecord) (ip : string) : DNSRecord :=
  {| rec_ID := rec_ID r; rec_IP := ip; rec_Name := rec_Name r;
     rec_Proxied := rec_Proxied r; rec_Type := rec_Type r;
     rec_ZoneID := rec_ZoneID r |}.

(** Check if record is present in domain conf *)
Definition recordTracked (domain : Domain) (record : DNSRecord) : bool :=
  if String.eqb (rec_Name record) (DomainName domain) then true
  else existsb (fun subDomain =>
                  String.eqb (rec_Name record) (subDomain +:+ "." +:+ DomainName domain))
               (SubDomains domain).

(** The [for _, zone := range z.Zones] loop of [getZone]. *)
Fixpoint scanZones (domain : string) (zones : list Zone) : string :=
  match zones with
  | [] => ""
  | zone :: rest =>
      if String.eqb (zone_Name zone) domain then zone_ID zone
      else scanZones domain rest
  end.

Section WithWorld.
Context (W : World) (handler : CloudflareHandler).

(** Create a new request with auth in place and optional proxy; a proxy
    that cannot be set up is logged and the direct client is used.
    [http.NewRequest] is taken to succeed, as in [dnspod.PostData]. *)
Definition newRequest (method url : string) (body : Body) : M Request :=
  _ ← (if negb (String.eqb (Socks5Proxy (Configuration handler)) "") then
         _ ← log ("use socks5 proxy:" +:+ Socks5Proxy (Configuration handler));
         r ← ask (fun tr => w_socks5 W tr (Socks5Proxy (Configuration handler)))
                 (EvSocks5 (Socks5Proxy (Configuration handler)));
         match r with
         | Some err => log ("can't connect to the proxy: " +:+ errorString err)
         | None => mret tt
         end
       else mret tt);
  mret {| req_Method := method;
          req_URL := API handler +:+ url;
          req_Header := [("Content-Type", "application/json");
                         ("X-Auth-Email", Email (Configuration handler));
                         ("X-Auth-Key", Password (Configuration handler))];
          req_Body := body |}.

(** Find the correct zone via domain name *)
Definition getZone (domain : string) : M string :=
  req ← newRequest "GET" "/zones" NoBody;
  r ← ask (fun tr => w_httpDo W tr req) (EvHttpDo req);
  match r with
  | inr err =>
      _ ← log ("Request error: " +:+ errorString err);
      mret ""
  | inl body =>
      match w_decodeZones W body with
      | inr err =>
          _ ← log ("Decoder error: " +:+ errorString err);
          _ ← log ("Response body: " +:+ body);
          mret ""
      | inl z =>
          if negb (zr_Success z) then
            _ ← log ("Response failed: " +:+ body);
            mret ""
          else mret (scanZones domain (zr_Zones z))
      end
  end.

(** Get all DNS A records for a zone *)
Definition getDNSRecords (zoneID : string) : M (list DNSRecord) :=
  req ← newRequest "GET" ("/zones/" +:+ zoneID +:+ "/dns_records?type=A") NoBody;
  r ← ask (fun tr => w_httpDo W tr req) (EvHttpDo req);
  match r with
  | inr err =>
      _ ← log ("Request error: " +:+ errorString err);
      mret []
  | inl body =>
      match w_decodeRecords W body with
      | inr err =>
          _ ← log ("Decoder error: " +:+ errorString err);
          _ ← log ("Response body: " +:+ body);
          mret []
      | inl r =>
          if negb (rr_Success r) then
            (* the body has been consumed: the second ReadAll reads nothing *)
            _ ← log "Response failed: ";
            mret []
          else mret (rr_Records r)
      end
  end.

(** Update DNS A Record with new IP *)
Definition updateRecord (record : DNSRecord) (newIP : string) : M unit :=
  let record := SetIP record newIP in
  req ← newRequest "PUT"
          ("/zones/" +:+ rec_ZoneID record +:+ "/dns_records/" +:+ rec_ID record)
          (JSONBody record);
  r ← ask (fun tr => w_httpDo W tr req) (EvHttpDo req);
  match r with
  | inr err => log ("Request error: " +:+ errorString err)
  | inl body =>
      match w_decodeUpdate W body with
      | inr err =>
          _ ← log ("Decoder error: " +:+ errorString err);
          log ("Response body: " +:+ body)
      | inl r =>
          if negb (ur_Success r) then log "Response failed: "
          else log ("Record updated: " +:+ rec_Name record +:+ " - " +:+ rec_IP record)
      end
  end.

Section Loop.
Context (domain : Domain).

(** The body of [for _, rec := range records]. *)
Definition recordBody (currentIP : string) (rec : DNSRecord) : M unit :=
  if negb (recordTracked domain rec) then log ("Skiping record: " +:+ rec_Name rec)
  else if negb (String.eqb (rec_IP rec) currentIP) then
    _ ← log ("IP mismatch: Current(" +:+ currentIP +:+ ") vs Cloudflare("
             +:+ rec_IP rec +:+ ")");
    updateRecord rec currentIP
  else log ("Record OK: " +:+ rec_Name rec +:+ " - " +:+ rec_IP rec).

(** One round of the [for] loop.  The function keeps no variable
    between rounds: the source leaves the cached-IP check as a TODO. *)
Definition loopBody : M unit :=
  '(currentIP, err) ← godns.GetCurrentIP W (Configuration handler);
  match err with
  | Some e => log ("Error in GetCurrentIP: " +:+ errorString e)
  | None =>
      _ ← log ("Current IP is: " +:+ currentIP);
      _ ← log ("Checking IP for domain " +:+ DomainName domain);
      zoneID ← getZone (DomainName domain);
      _ ← (if negb (String.eqb zoneID "") then
             records ← getDNSRecords zoneID;
             forRange records (recordBody currentIP)
           else log ("Failed to find zone for domain: " +:+ DomainName domain));
      _ ← log ("Going to sleep, will start next checking in "
               +:+ strconv.FormatInt (w_INTERVAL W) +:+ " minutes...");
      emit (EvSleep (wrap64 (60000000000 * w_INTERVAL W)))
  end.

End Loop.
End WithWorld.

End cloudflare.

(* ===================================================================== *)
(** * Part 6: the Supervisor                                            *)
(* ===================================================================== *)
Module supervisor.

(** What the Supervisor does for a domain, in order. *)
Inductive Action : Type :=
| Launch (d : string)
| Relaunch (d : string)
| Abandon (d : string).

#[global] Instance Action_eq_dec : EqDecision Action.
Proof. solve_decision. Defined.

(** Modelled from the spec: the Supervisor lives in the program's main
    package, which is not among the sources; only its retry budget
    [godns.PanicMax] and the sending side of the failure channel (the
    deferred function of [DomainLoop]) are.  Following section 4.5 of the
    specification: one Domain Loop is launched per configured domain, a
    failure counter is kept per domain, starting at zero; on a failure
    signal for a domain the counter is incremented, and the loop is
    relaunched if the counter is below [PanicMax], and otherwise a terminal
    message is logged and the domain is not relaunched.  Domains are
    identified by their name. *)
Record State : Type := mkState {
  counter : gmap string Z;
  running : gset string;
  actions : list Action
}.

(** The failure counter of a domain; a domain without entry has counter 0. *)
Definition failures (st : State) (d : string) : Z := default 0 (counter st !! d).

(** Modelled from the spec: the start of [run(configs)]. *)
Definition start (configs : list Domain) : State :=
  {| counter := ∅;
     running := list_to_set (map DomainName configs);
     actions := map (fun c => Launch (DomainName c)) configs |}.

(** Modelled from the spec: the reaction to one failure signal. *)
Definition onFailure (st : State) (signal : Domain) : State :=
  let d := DomainName signal in
  let c := failures st d + 1 in
  if c <? godns.PanicMax then
    {| counter := <[d := c]> (counter st);
       running := running st ∪ {[d]};
       actions := actions st ++ [Relaunch d] |}
  else
    {| counter := <[d := c]> (counter st);
       running := running st ∖ {[d]};
       actions := actions st ++ [Abandon d] |}.

(** Modelled from the spec: the Supervisor draining the failure channel. *)
Definition receive (st : State) (signals : list Domain) : State :=
  fold_left onFailure signals st.

(** Modelled from the spec: [run(configs)], observed after the failure
    signals [signals] have arrived in this order. *)
Definition run (configs : list Domain) (signals : list Domain) : State :=
  receive (start configs) signals.

(** How often domain [d] was relaunched. *)
Definition relaunches (st : State) (d : string) : nat :=
  length (filter (fun a => a = Relaunch d) (actions st)).

End supervisor.

(* ===================================================================== *)
(** * Part 7: vocabulary of the specification                           *)
(* ===================================================================== *)

(** The one-byte string "\n". *)
Definition NL : string := String LF EmptyString.

(** [n] newlines. *)
Fixpoint newlines (n : nat) : string :=
  match n with
  | O => EmptyString
  | S k => String LF (newlines k)
  end.

(** The number of ':' characters of a string, by positions. *)
Definition colons (s : string) : nat :=
  length (filter (fun a => a = ":"%char) (list_ascii_of_string s)).

(** The carriage return byte, Go's ['\r'], and the line end "\r\n". *)
Definition CR : ascii := Ascii.ascii_of_nat 13.
Definition CRLF : string := String CR NL.

(** Two texts that differ only in their trailing newlines. *)
Definition trailingNewlinesOnly (a b : string) : Prop :=
  exists (t : string) (n m : nat), a = t +:+ newlines n /\ b = t +:+ newlines m.

(** White space, as Go's [unicode.IsSpace] has it on ASCII: the bytes 9 to
    13 (tab, newline, vertical tab, form feed, carriage return) and the
    blank. *)
Definition isSpace (a : ascii) : bool :=
  let n := Z.of_nat (nat_of_ascii a) in
  ((9 <=? n) && (n <=? 13)) || (n =? 32).

(** Two texts that differ only in trailing white space. *)
Definition trailingSpaceOnly (a b : string) : Prop :=
  exists t u v : string,
    a = t +:+ u /\ b = t +:+ v
    /\ forallb isSpace (list_ascii_of_string u) = true
    /\ forallb isSpace (list_ascii_of_string v) = true.

(** The bodies that the echo service answered in a stretch of trace, in
    order. *)
Definition echoBodies (evs : list Event) : list string :=
  omap (fun e => match e with EvHttpGet _ (inl body) => Some body | _ => None end) evs.

(** The requests sent to the DNS provider in a stretch of trace, in order. *)
Definition providerCalls (evs : list Event) : list Request :=
  omap (fun e => match e with EvHttpDo req _ => Some req | _ => None end) evs.

(** The mails handed to the SMTP dialer in a stretch of trace, in order. *)
Definition mailsSent (evs : list Event) : list Mail :=
  omap (fun e => match e with EvDialAndSend m _ => Some m | _ => None end) evs.

(** The failure signals put on the panic channel in a stretch of trace. *)
Definition signalsSent (evs : list Event) : list Domain :=
  omap (fun e => match e with EvPanicChan d => Some d | _ => None end) evs.

(** [post m tr Q]: run from trace [tr], the computation [m] ends with an
    outcome [o] after appending the events [evs], and [Q o evs] holds. *)
Definition post {A} (m : M A) (tr : Trace) (Q : Outcome A -> list Event -> Prop) : Prop :=
  exists o evs, m tr = (o, tr ++ evs) /\ Q o evs.

(** A stretch of trace without provider request and without mail. *)
Definition quiet (evs : list Event) : Prop :=
  providerCalls evs = [] /\ mailsSent evs = [].

(** An IPv4 address, in Go's sense: [To4] does not return nil. *)
Definition isIPv4Address (ip : net.IP) : bool :=
  match net.To4 ip with
  | Some _ => true
  | None => false
  end.

(** The filters that the specification lists for interface addresses: not
    unspecified, not multicast, not loopback, not link-local (unicast or
    multicast), and IPv4. *)
Definition listedFilters (ip : net.IP) : bool :=
  negb (net.IsUnspecified ip)
    && negb (net.IsMulticast ip)
    && negb (net.IsLoopback ip)
    && negb (net.IsLinkLocalUnicast ip)
    && negb (net.IsLinkLocalMulticast ip)
    && isIPv4Address ip.

(** The first address, in the reported order, that passes a filter. *)
Definition firstPassing (f : net.IP -> bool) (addrs : list net.Addr) : option net.IP :=
  find f (map godns.addrIP addrs).

(** What [GetIPFromInterface] returns for a chosen address, or for none. *)
Definition interfaceAnswer (name : string) (choice : option net.IP) : string * option error :=
  match choice with
  | Some ip => (net.String_ ip, None)
  | None => (EmptyString, Some (mkError ("can't get a vaild address from " +:+ name)))
  end.

(** The request that [PostData url content] hands to the HTTP client. *)
Definition postRequest (handler : dnspod.Handler) (url : string) (content : Values) : Request :=
  {| req_Method := "POST";
     req_URL := dnspod.API handler +:+ url;
     req_Header := [("Content-Type", "application/x-www-form-urlencoded");
                    ("User-Agent", "GoDNS/0.1 ()")];
     req_Body := FormBody (dnspod.GenerateHeader handler content) |}.

(** The form of the three DNSPod calls. *)
Definition domainListForm : Values :=
  [("type", "all"); ("offset", "0"); ("length", "20")].

Definition recordListForm (domainID : Z) (name : string) : Values :=
  [("domain_id", strconv.FormatInt domainID); ("offset", "0"); ("length", "1");
   ("sub_domain", name)].

Definition recordModifyForm (domainID : Z) (subDomainID subDomainName ip : string) : Values :=
  [("domain_id", strconv.FormatInt domainID); ("record_id", subDomainID);
   ("sub_domain", subDomainName); ("record_type", "A"); ("record_line", "默认");
   ("value", ip)].

Definition domainListRequest (handler : dnspod.Handler) : Request :=
  postRequest handler "/Domain.List" domainListForm.

Definition recordListRequest (handler : dnspod.Handler) (domainID : Z) (name : string) : Request :=
  postRequest handler "/Record.List" (recordListForm domainID name).

Definition recordModifyRequest (handler : dnspod.Handler) (domainID : Z)
    (subDomainID subDomainName ip : string) : Request :=
  postRequest handler "/Record.Modify" (recordModifyForm domainID subDomainID subDomainName ip).

(** The mail that [SendNotify] hands to the dialer. *)
Definition notifyMail (W : World) (cfg : Settings) (domain currentIP : string) : Mail :=
  {| mail_From := SMTPUsername (Notify_ cfg);
     mail_To := SendTo (Notify_ cfg);
     mail_Subject := "GoDNS Notification";
     mail_Body := w_buildTemplate W currentIP domain;
     mail_Server := SMTPServer (Notify_ cfg);
     mail_Port := SMTPPort (Notify_ cfg);
     mail_Username := SMTPUsername (Notify_ cfg);
     mail_Password := SMTPPassword (Notify_ cfg) |}.






(** The number of failure signals for domain [d] in a sequence. *)
Definition signalCount (d : string) (signals : list Domain) : nat :=
  length (filter (fun s => DomainName s = d) signals).

(** A computation that puts nothing on the panic channel. *)
Definition silent {A} (m : M A) : Prop :=
  forall tr, post m tr (fun _ evs => signalsSent evs = []).

(** The request that the Cloudflare handler sends to list the zones. *)
Definition zonesRequest (handler : cloudflare.CloudflareHandler) : Request :=
  {| req_Method := "GET";
     req_URL := cloudflare.API handler +:+ "/zones";
     req_Header := [("Content-Type", "application/json");
                    ("X-Auth-Email", Email (cloudflare.Configuration handler));
                    ("X-Auth-Key", Password (cloudflare.Configuration handler))];
     req_Body := NoBody |}.

(* ===================================================================== *)
(** * Part 8: concrete configurations and worlds                        *)
(* ===================================================================== *)

(** A world whose answers do not depend on the history. *)
Definition constWorld
    (get : string -> string + error)
    (do_ : Request -> string + error)
    (ifaddrs : list net.Addr + error)
    (mail : option error)
    (parse : string -> JSON + error) : World :=
  {| w_socks5 := fun _ _ => None;
     w_httpGet := fun _ url => get url;
     w_httpDo := fun _ req => do_ req;
     w_interfaceByName := fun _ name => inl (net.mkInterface 2 name);
     w_interfaceAddrs := fun _ _ => ifaddrs;
     w_dialAndSend := fun _ _ => mail;
     w_NewJson := parse;
     w_decodeZones := fun _ => inr (mkError "unexpected end of JSON input");
     w_decodeRecords := fun _ => inr (mkError "unexpected end of JSON input");
     w_decodeUpdate := fun _ => inr (mkError "unexpected end of JSON input");
     w_buildTemplate := fun ip domain => domain +:+ " now points to " +:+ ip;
     w_INTERVAL := 5 |}.

Definition exampleNotify (enabled : bool) : Notify :=
  {| Enabled := enabled;
     SMTPServer := "smtp.example.com";
     SMTPUsername := "godns@example.com";
     SMTPPassword := "secret";
     SMTPPort := 25;
     SendTo := "admin@example.com" |}.

(** DNSPod settings for example.com / home, with the given IP sources. *)
Definition exampleSettings (ipUrl ipInterface : string) (notify : bool) : Settings :=
  {| Provider := "DNSPod";
     Email := "";
     Password := "";
     LoginToken := "12345,abcdef";
     Domains := [mkDomain "example.com" ["home"]];
     IPUrl := ipUrl;
     Interval := 300;
     UserAgent := "";
     LogPath := "";
     Socks5Proxy := "";
     Notify_ := exampleNotify notify;
     IPInterface := ipInterface |}.

Definition exampleDomain : Domain := mkDomain "example.com" ["home"].

Definition timeoutError : error := mkError "dial tcp: i/o timeout".

(** The addresses of an interface: loopback, an IPv6 link-local address, and
    one private IPv4 address. *)
Definition exampleAddrs : list net.Addr :=
  [ net.IPNet (Some [127; 0; 0; 1]) [255; 0; 0; 0];
    net.IPNet (Some [254; 128; 0; 0; 0; 0; 0; 0; 0; 0; 0; 0; 0; 0; 0; 1])
              [255; 255; 255; 255; 255; 255; 255; 255; 0; 0; 0; 0; 0; 0; 0; 0];
    net.IPNet (Some [192; 168; 1; 20]) [255; 255; 255; 0] ].

(** The limited broadcast address followed by a private address. *)
Definition broadcastFirstAddrs : list net.Addr :=
  [ net.IPNet (Some [255; 255; 255; 255]) [255; 255; 255; 255];
    net.IPNet (Some [10; 0; 0; 1]) [255; 0; 0; 0] ].

(** The echo service is unreachable; the interface has [exampleAddrs]. *)
Definition worldEchoDown : World :=
  constWorld (fun _ => inr timeoutError) (fun _ => inr timeoutError)
             (inl exampleAddrs) None (fun _ => inr (mkError "unexpected end of JSON input")).

(** Neither the echo service nor the interface gives an address. *)
Definition worldNoAddress : World :=
  constWorld (fun _ => inr timeoutError) (fun _ => inr timeoutError)
             (inr (mkError "route ip+net: no such network interface")) None
             (fun _ => inr (mkError "unexpected end of JSON input")).

(** The interface reports the limited broadcast address first. *)
Definition worldBroadcastFirst : World :=
  constWorld (fun _ => inr timeoutError) (fun _ => inr timeoutError)
             (inl broadcastFirstAddrs) None
             (fun _ => inr (mkError "unexpected end of JSON input")).

Definition exampleHandler (ipUrl ipInterface : string) (notify : bool) : dnspod.Handler :=
  {| dnspod.Configuration := exampleSettings ipUrl ipInterface notify;
     dnspod.API := "https://dnsapi.cn" |}.

Definition statusOK : string * JSON := ("status", JObject [("code", JString "1")]).

(** Decoded answers of DNSPod, and the table that stands for the decoder:
    an answer body is named by a token. *)
Definition domainListJSON (id : string) : JSON :=
  JObject [statusOK;
           ("domains", JArray [JObject [("id", JNumber "11"); ("name", JString "example.org")];
                               JObject [("id", JNumber id); ("name", JString "example.com")]])].

Definition domainListOtherJSON : JSON :=
  JObject [statusOK;
           ("domains", JArray [JObject [("id", JNumber "11"); ("name", JString "example.org")]])].

Definition recordListJSON (value : string) : JSON :=
  JObject [statusOK;
           ("records", JArray [JObject [("id", JString "r-16894439");
                                        ("name", JString "home");
                                        ("value", JString value)]])].

Definition exampleParse (s : string) : JSON + error :=
  if String.eqb s "domain-list" then inl (domainListJSON "7")
  else if String.eqb s "domain-list-id-minus-one" then inl (domainListJSON "-1")
  else if String.eqb s "domain-list-other" then inl domainListOtherJSON
  else if String.eqb s "record-list" then inl (recordListJSON "1.2.3.4")
  else if String.eqb s "modify-ok" then inl (JObject [statusOK])
  else inr (mkError "invalid character").

(** A DNSPod that answers each endpoint with a fixed body. *)
Definition exampleProvider (domainList : string) (modify : string + error) (req : Request)
  : string + error :=
  if String.eqb (req_URL req) "https://dnsapi.cn/Domain.List" then inl domainList
  else if String.eqb (req_URL req) "https://dnsapi.cn/Record.List" then inl "record-list"
  else if String.eqb (req_URL req) "https://dnsapi.cn/Record.Modify" then modify
  else inr timeoutError.

(** The echo service answers [echo]; DNSPod lists example.com with id 7
    and the record home with value 1.2.3.4; the update call gets [modify];
    the mail gets [mail]. *)
Definition worldDNSPod (echo : string) (modify : string + error) (mail : option error) : World :=
  constWorld (fun _ => inl echo) (exampleProvider "domain-list" modify)
             (inl exampleAddrs) mail exampleParse.




(** The DNSPod handler of the examples: echo service configured, no
    interface, notification enabled. *)
Definition dnspodHandler : dnspod.Handler :=
  exampleHandler "https://myip.example.com" "" true.

(** The echo service keeps answering 1.2.3.4. *)
Definition worldSteady : World := worldDNSPod "1.2.3.4" (inl "modify-ok") None.

(** The echo service answers 5.6.7.8 and the update call times out. *)
Definition worldUpdateFails : World := worldDNSPod "5.6.7.8" (inr timeoutError) None.

(** Whether the echo service has been asked before. *)
Definition echoAsked (tr : Trace) : bool :=
  existsb (fun e => match e with EvHttpGet _ _ => true | _ => false end) tr.

(** The echo service answers [first] to the first request and [later] to
    every request after it; DNSPod is as in [worldSteady]. *)
Definition worldEchoTwice (first later : string) : World :=
  {| w_socks5 := w_socks5 worldSteady;
     w_httpGet := fun tr _ => if echoAsked tr then inl later else inl first;
     w_httpDo := w_httpDo worldSteady;
     w_interfaceByName := w_interfaceByName worldSteady;
     w_interfaceAddrs := w_interfaceAddrs worldSteady;
     w_dialAndSend := w_dialAndSend worldSteady;
     w_NewJson := w_NewJson worldSteady;
     w_decodeZones := w_decodeZones worldSteady;
     w_decodeRecords := w_decodeRecords worldSteady;
     w_decodeUpdate := w_decodeUpdate worldSteady;
     w_buildTemplate := w_buildTemplate worldSteady;
     w_INTERVAL := w_INTERVAL worldSteady |}.

(** The echo service ends its answer with one newline, then with two. *)
Definition worldEchoNewlines : World :=
  worldEchoTwice ("1.2.3.4" +:+ newlines 1) ("1.2.3.4" +:+ newlines 2).

(** The echo service ends its answer with "\n", then with "\r\n". *)
Definition worldEchoCRLF : World :=
  worldEchoTwice ("1.2.3.4" +:+ NL) ("1.2.3.4" +:+ CRLF).

(** The first round of the DNSPod loop for example.com in these two worlds:
    the record home already holds 1.2.3.4. *)
Definition firstRound : Trace :=
  [ EvLog "Checking IP for domain example.com";
    EvHttpDo (domainListRequest dnspodHandler) (inl "domain-list");
    EvHttpGet "https://myip.example.com" (inl ("1.2.3.4" +:+ NL));
    EvLog "currentIP is: 1.2.3.4";
    EvLog "debug: 7 home";
    EvHttpDo (recordListRequest dnspodHandler 7 "home") (inl "record-list");
    EvLog "home.example.com Current IP is same as domain IP, no need to update...";
    EvLog "Going to sleep, will start next checking in 300 seconds...";
    EvSleep 300000000000 ].

(** Two supervised domains, and five failure signals of the first. *)
Definition flakyDomain : Domain := mkDomain "flaky.example.com" ["www"].

Definition supervisedDomains : list Domain := [flakyDomain; exampleDomain].

Definition fiveFailures : list Domain := replicate 5 flakyDomain.

(* ===================================================================== *)
(** * Part 9: properties of the library functions                       *)
(* ===================================================================== *)

Lemma sapp_nil (t : string) : EmptyString +:+ t = t.
Proof. reflexivity. Qed.

Lemma sapp_cons (a : ascii) (r t : string) : String a r +:+ t = String a (r +:+ t).
Proof. reflexivity. Qed.

Lemma sapp_nil_r (s : string) : s +:+ EmptyString = s.
Proof. induction s as [|a r IH]; [reflexivity | rewrite sapp_cons, IH; reflexivity]. Qed.

Lemma sapp_assoc (s t u : string) : (s +:+ t) +:+ u = s +:+ (t +:+ u).
Proof.
  induction s as [|a r IH]; [reflexivity | rewrite !sapp_cons, IH; reflexivity].
Qed.

Lemma countLoop_shift (s : string) (c : ascii) (n : Z) :
  strings.countLoop s c n = n + strings.countLoop s c 0.
Proof.
  revert n. induction s as [|a r IH]; intros n; simpl.
  - lia.
  - destruct (Ascii.eqb a c).
    + rewrite (IH (n + 1)), (IH (0 + 1)). lia.
    + apply IH.
Qed.

Lemma CountString_cons (a : ascii) (r : string) (c : ascii) :
  strings.CountString (String a r) c
  = (if Ascii.eqb a c then 1 else 0) + strings.CountString r c.
Proof.
  unfold strings.CountString. simpl.
  destruct (Ascii.eqb a c); [apply countLoop_shift | reflexivity].
Qed.

Lemma CountString_nil (c : ascii) : strings.CountString EmptyString c = 0.
Proof. reflexivity. Qed.

Lemma CountString_app (s t : string) (c : ascii) :
  strings.CountString (s +:+ t) c = strings.CountString s c + strings.CountString t c.
Proof.
  induction s as [|a r IH].
  - rewrite sapp_nil, CountString_nil. lia.
  - rewrite sapp_cons, !CountString_cons, IH. lia.
Qed.

Lemma CountString_nonneg (s : string) (c : ascii) : 0 <= strings.CountString s c.
Proof.
  induction s as [|a r IH].
  - rewrite CountString_nil. lia.
  - rewrite CountString_cons. destruct (Ascii.eqb a c); lia.
Qed.

Lemma CountString_colons (s : string) :
  strings.CountString s ":" = Z.of_nat (colons s).
Proof.
  unfold colons. induction s as [|a r IH].
  - reflexivity.
  - rewrite CountString_cons, IH. simpl list_ascii_of_string.
    rewrite filter_cons. destruct (Ascii.eqb_spec a ":") as [->|Hne].
    + rewrite decide_True by reflexivity. simpl length. lia.
    + rewrite decide_False by assumption. lia.
Qed.

(** ** Trimming *)

Lemma trimRightByte_snoc (s : string) (c : ascii) :
  strings.trimRightByte (s +:+ String c EmptyString) c = strings.trimRightByte s c.
Proof.
  induction s as [|a r IH].
  - rewrite sapp_nil. simpl. rewrite Ascii.eqb_refl. reflexivity.
  - rewrite sapp_cons. simpl. rewrite IH. reflexivity.
Qed.

Lemma app_newlines_S (s : string) (n : nat) :
  s +:+ newlines (S n) = (s +:+ newlines n) +:+ NL.
Proof.
  rewrite sapp_assoc. f_equal.
  induction n as [|k IHk]; [reflexivity|].
  change (String LF (newlines (S k)) = String LF (newlines k) +:+ NL).
  rewrite sapp_cons. f_equal. exact IHk.
Qed.

Lemma trimRightByte_newlines (s : string) (n : nat) :
  strings.trimRightByte (s +:+ newlines n) LF = strings.trimRightByte s LF.
Proof.
  induction n as [|k IH].
  - simpl newlines. rewrite sapp_nil_r. reflexivity.
  - rewrite app_newlines_S. unfold NL. rewrite trimRightByte_snoc. exact IH.
Qed.

(** What is kept by [trimRightByte] does not end with the trimmed byte, and
    what is dropped is a run of that byte. *)
Lemma trimRightByte_idem (s : string) (c : ascii) :
  strings.trimRightByte (strings.trimRightByte s c) c = strings.trimRightByte s c.
Proof.
  induction s as [|a r IH]; simpl; [reflexivity|].
  destruct (strings.trimRightByte r c) as [|b r'] eqn:E.
  - destruct (Ascii.eqb a c) eqn:Ea; simpl; [reflexivity | rewrite Ea; reflexivity].
  - change (strings.trimRightByte (String a (String b r')) c)
      with (match strings.trimRightByte (String b r') c with
            | EmptyString => if Ascii.eqb a c then EmptyString else String a EmptyString
            | String b0 r0 => String a (String b0 r0)
            end).
    rewrite IH. reflexivity.
Qed.

Lemma trimRightByte_dropped (s : string) (c : ascii) :
  exists n : nat, s = strings.trimRightByte s c +:+ string_of_list_ascii (replicate n c).
Proof.
  induction s as [|a r [n IH]]; simpl.
  - exists O. reflexivity.
  - destruct (strings.trimRightByte r c) as [|b r'] eqn:E.
    + destruct (Ascii.eqb_spec a c) as [->|Hne].
      * exists (S n). rewrite sapp_nil in *. simpl. f_equal. exact IH.
      * exists n. rewrite sapp_cons, sapp_nil in *. f_equal. exact IH.
    + exists n. rewrite sapp_cons. f_equal. exact IH.
Qed.

(** A text without the byte is left as it is. *)
Lemma trimRightByte_no_byte (s : string) (c : ascii) :
  strings.CountString s c = 0 -> strings.trimRightByte s c = s.
Proof.
  induction s as [|a r IH]; intros H; [reflexivity|].
  rewrite CountString_cons in H. pose proof (CountString_nonneg r c) as Hr.
  destruct (Ascii.eqb a c) eqn:Ea; [lia|].
  cbn [strings.trimRightByte]. rewrite IH by lia.
  destruct r; [rewrite Ea|]; reflexivity.
Qed.

(** Dropping leading bytes from a text that does not end with the byte
    gives a text that does not end with it. *)
Lemma trimRightByte_trimLeftByte (s : string) (c : ascii) :
  strings.trimRightByte s c = s ->
  strings.trimRightByte (strings.trimLeftByte s c) c = strings.trimLeftByte s c.
Proof.
  induction s as [|a r IH]; intros H; [reflexivity|].
  cbn [strings.trimLeftByte]. destruct (Ascii.eqb a c) eqn:Ea; [|exact H].
  apply IH. cbn [strings.trimRightByte] in H. rewrite Ea in H.
  destruct (strings.trimRightByte r c) as [|b r'] eqn:E; [discriminate H|].
  congruence.
Qed.

Lemma TrimRight1_Trim1 (s : string) (c : ascii) :
  strings.TrimRight1 (strings.Trim1 s c) c = strings.Trim1 s c.
Proof.
  unfold strings.TrimRight1, strings.Trim1.
  apply trimRightByte_trimLeftByte, trimRightByte_idem.
Qed.

(** A text that ends with another byte is left as it is. *)
Lemma trimRightByte_snoc_other (s : string) (c d : ascii) :
  Ascii.eqb c d = false ->
  strings.trimRightByte (s +:+ String c EmptyString) d = s +:+ String c EmptyString.
Proof.
  intros H. induction s as [|a r IH].
  - rewrite sapp_nil. cbn [strings.trimRightByte]. rewrite H. reflexivity.
  - rewrite sapp_cons. cbn [strings.trimRightByte]. rewrite IH.
    destruct r; reflexivity.
Qed.

Lemma trimRightByte_length (s : string) (c : ascii) :
  (String.length (strings.trimRightByte s c) <= String.length s)%nat.
Proof.
  induction s as [|a r IH]; cbn [strings.trimRightByte]; [reflexivity|].
  destruct (strings.trimRightByte r c) as [|b r'].
  - destruct (Ascii.eqb a c); cbn [String.length]; lia.
  - cbn [String.length] in *. lia.
Qed.

Lemma length_sapp (s t : string) :
  String.length (s +:+ t) = (String.length s + String.length t)%nat.
Proof.
  induction s as [|a r IH]; [reflexivity|].
  rewrite sapp_cons. cbn [String.length]. rewrite IH. reflexivity.
Qed.

Lemma Trim1_newlines (body : string) (n : nat) :
  strings.Trim1 (body +:+ newlines n) LF = strings.Trim1 body LF.
Proof. unfold strings.Trim1. rewrite trimRightByte_newlines. reflexivity. Qed.

Lemma String_eqb_true (a b : string) : String.eqb a b = true <-> a = b.
Proof. apply String.eqb_eq. Qed.

(* ===================================================================== *)
(** * Part 10: the IPv4 classifier                                      *)
(* ===================================================================== *)

(** C10.  [isIPv4] answers true for a string exactly when the string holds
    fewer than two ':' characters.  Hence every string with no colon or one
    colon passes the last filter of [GetIPFromInterface], well-formed dotted
    quad or not: the texts "not-an-address" and "host:8080" are accepted, as
    is the "?"-prefixed hexadecimal text that [IP.String] gives for a byte
    slice of a wrong length. *)
Theorem isIPv4_iff_fewer_than_two_colons :
  (forall s : string, godns.isIPv4 s = true <-> (colons s < 2)%nat)
  /\ godns.isIPv4 "not-an-address" = true
  /\ godns.isIPv4 "host:8080" = true
  /\ godns.isIPv4 (net.String_ (Some [1; 2; 3; 4; 5])) = true
  /\ godns.isIPv4 "::1" = false.
Proof.
  split; [|repeat split; reflexivity].
  intros s. unfold godns.isIPv4, strings.Count1.
  rewrite CountString_colons, Z.ltb_lt. lia.
Qed.

(* ===================================================================== *)
(** * Part 11: reasoning about computations                             *)
(* ===================================================================== *)

Lemma run_bind {A B} (m : M A) (f : A -> M B) (tr : Trace) :
  (m ≫= f) tr
  = match m tr with
    | (Ok a, tr') => f a tr'
    | (Panic v, tr') => (Panic v, tr')
    end.
Proof. reflexivity. Qed.

Lemma run_ret {A} (a : A) (tr : Trace) : (mret a : M A) tr = (Ok a, tr).
Proof. reflexivity. Qed.

Lemma run_log (text : string) (tr : Trace) : log text tr = (Ok tt, tr ++ [EvLog text]).
Proof. reflexivity. Qed.

Lemma run_emit (e : Event) (tr : Trace) : emit e tr = (Ok tt, tr ++ [e]).
Proof. reflexivity. Qed.

Lemma run_ask {R} (q : Trace -> R) (ev : R -> Event) (tr : Trace) :
  ask q ev tr = (Ok (q tr), tr ++ [ev (q tr)]).
Proof. reflexivity. Qed.

Lemma post_ret {A} (a : A) tr (Q : Outcome A -> list Event -> Prop) :
  Q (Ok a) [] -> post (mret a) tr Q.
Proof. intros H. exists (Ok a), []. rewrite app_nil_r. auto. Qed.

Lemma post_panic {A} (v : string) tr (Q : Outcome A -> list Event -> Prop) :
  Q (Panic v) [] -> post (panic v) tr Q.
Proof. intros H. exists (Panic v), []. rewrite app_nil_r. auto. Qed.

Lemma post_emit (e : Event) tr (Q : Outcome unit -> list Event -> Prop) :
  Q (Ok tt) [e] -> post (emit e) tr Q.
Proof. intros H. exists (Ok tt), [e]. auto. Qed.

Lemma post_log (text : string) tr (Q : Outcome unit -> list Event -> Prop) :
  Q (Ok tt) [EvLog text] -> post (log text) tr Q.
Proof. apply post_emit. Qed.

Lemma post_ask {R} (q : Trace -> R) (ev : R -> Event) tr
      (Q : Outcome R -> list Event -> Prop) :
  Q (Ok (q tr)) [ev (q tr)] -> post (ask q ev) tr Q.
Proof. intros H. exists (Ok (q tr)), [ev (q tr)]. auto. Qed.

Lemma post_bind {A B} (m : M A) (f : A -> M B) tr
      (Q : Outcome B -> list Event -> Prop) :
  post m tr (fun o evs =>
               match o with
               | Ok a => post (f a) (tr ++ evs) (fun o' evs' => Q o' (evs ++ evs'))
               | Panic v => Q (Panic v) evs
               end) ->
  post (m ≫= f) tr Q.
Proof.
  intros (o & evs & Hm & H). destruct o as [a|v].
  - destruct H as (o' & evs' & Hf & HQ).
    exists o', (evs ++ evs'). rewrite run_bind, Hm, Hf, app_assoc. auto.
  - exists (Panic v), evs. rewrite run_bind, Hm. auto.
Qed.

Lemma post_mono {A} (m : M A) tr (Q Q' : Outcome A -> list Event -> Prop) :
  post m tr Q -> (forall o evs, Q o evs -> Q' o evs) -> post m tr Q'.
Proof. intros (o & evs & Hm & H) HQ. exists o, evs. auto. Qed.

(** Sequencing with a computation whose postcondition is already known. *)
Lemma post_bind_with {A B} (m : M A) (f : A -> M B) tr
      (P : Outcome A -> list Event -> Prop) (Q : Outcome B -> list Event -> Prop) :
  post m tr P ->
  (forall o evs, P o evs ->
     match o with
     | Ok a => post (f a) (tr ++ evs) (fun o' evs' => Q o' (evs ++ evs'))
     | Panic v => Q (Panic v) evs
     end) ->
  post (m ≫= f) tr Q.
Proof. intros Hm H. apply post_bind. eapply post_mono; [exact Hm | exact H]. Qed.

(** From a postcondition to a fact about a given run. *)
Lemma post_run {A} (m : M A) tr (Q : Outcome A -> list Event -> Prop) o tr' :
  post m tr Q -> m tr = (o, tr') -> exists evs, tr' = tr ++ evs /\ Q o evs.
Proof.
  intros (o0 & evs & Hm & H) Hrun. rewrite Hm in Hrun. inversion Hrun; subst.
  exists evs. auto.
Qed.

Lemma providerCalls_app (a b : list Event) :
  providerCalls (a ++ b) = providerCalls a ++ providerCalls b.
Proof. apply omap_app. Qed.

Lemma mailsSent_app (a b : list Event) : mailsSent (a ++ b) = mailsSent a ++ mailsSent b.
Proof. apply omap_app. Qed.

Lemma signalsSent_app (a b : list Event) :
  signalsSent (a ++ b) = signalsSent a ++ signalsSent b.
Proof. apply omap_app. Qed.

(** One step of symbolic execution of a computation under [post]. *)
Ltac mstep :=
  lazymatch goal with
  | |- post (mret _) _ _ => apply post_ret
  | |- post (log _) _ _ => apply post_log
  | |- post (emit _) _ _ => apply post_emit
  | |- post (ask _ _) _ _ => apply post_ask
  | |- post (panic _) _ _ => apply post_panic
  | |- post (mbind _ _) _ _ => apply post_bind
  end.

Ltac msteps := repeat (mstep; cbn beta iota).

(** Accounting of provider calls and mails along a concatenation. *)
Ltac trace_tac :=
  rewrite ?providerCalls_app, ?mailsSent_app;
  repeat match goal with
         | H : providerCalls _ = _ |- _ => rewrite H
         | H : mailsSent _ = _ |- _ => rewrite H
         end;
  cbn [providerCalls mailsSent omap app];
  try reflexivity.

(** Running a computation forward on a given trace. *)
Ltac mrun :=
  repeat (first [ rewrite run_bind | rewrite run_log | rewrite run_ret
                | rewrite run_emit | rewrite run_ask ];
          cbn beta iota).

(* ===================================================================== *)
(** * Part 12: the text form of IP addresses                            *)
(* ===================================================================== *)

Lemma digitChar_not_colon (n : Z) :
  Ascii.eqb (strconv.digitChar (n mod 10)) ":" = false.
Proof.
  assert (H : 0 <= n mod 10 < 10) by (apply Z.mod_pos_bound; lia).
  assert (Hc : n mod 10 = 0 \/ n mod 10 = 1 \/ n mod 10 = 2 \/ n mod 10 = 3
               \/ n mod 10 = 4 \/ n mod 10 = 5 \/ n mod 10 = 6 \/ n mod 10 = 7
               \/ n mod 10 = 8 \/ n mod 10 = 9) by lia.
  repeat (destruct Hc as [Hc|Hc]; [rewrite Hc; reflexivity|]).
  rewrite Hc. reflexivity.
Qed.

Lemma uitoaLoop_colons (fuel : nat) (n : Z) (acc : string) :
  strings.CountString (strconv.uitoaLoop fuel n acc) ":" = strings.CountString acc ":".
Proof.
  revert n acc. induction fuel as [|f IH]; intros n acc; simpl; [reflexivity|].
  destruct (n <? 10).
  - rewrite CountString_cons, digitChar_not_colon. lia.
  - rewrite IH, CountString_cons, digitChar_not_colon. lia.
Qed.

Lemma uitoa_colons (n : Z) : strings.CountString (strconv.uitoa n) ":" = 0.
Proof. unfold strconv.uitoa. rewrite uitoaLoop_colons. reflexivity. Qed.

Lemma hexDigit_not_colon (v : Z) :
  Ascii.eqb (net.hexDigit (Z.land v 15)) ":" = false.
Proof.
  change 15 with (Z.ones 4). rewrite Z.land_ones by lia.
  assert (H : 0 <= v mod 2 ^ 4 < 2 ^ 4) by (apply Z.mod_pos_bound; lia).
  change (2 ^ 4) with 16 in *.
  assert (Hc : v mod 16 = 0 \/ v mod 16 = 1 \/ v mod 16 = 2 \/ v mod 16 = 3
               \/ v mod 16 = 4 \/ v mod 16 = 5 \/ v mod 16 = 6 \/ v mod 16 = 7
               \/ v mod 16 = 8 \/ v mod 16 = 9 \/ v mod 16 = 10 \/ v mod 16 = 11
               \/ v mod 16 = 12 \/ v mod 16 = 13 \/ v mod 16 = 14 \/ v mod 16 = 15) by lia.
  repeat (destruct Hc as [Hc|Hc]; [rewrite Hc; reflexivity|]).
  rewrite Hc. reflexivity.
Qed.

Lemma appendHexLoop_colons (fuel : nat) (dst : string) (i : Z) :
  strings.CountString (net.appendHexLoop fuel dst i) ":" = strings.CountString dst ":".
Proof.
  revert dst. induction fuel as [|j IH]; intros dst; [reflexivity|].
  cbn [net.appendHexLoop]. rewrite IH.
  destruct (0 <? Z.shiftr i (Z.of_nat j * 4)); [|reflexivity].
  rewrite CountString_app, CountString_cons, hexDigit_not_colon, CountString_nil. lia.
Qed.

Lemma appendHex_colons (dst : string) (i : Z) :
  strings.CountString (net.appendHex dst i) ":" = strings.CountString dst ":".
Proof.
  unfold net.appendHex. destruct (i =? 0).
  - rewrite CountString_app. change (strings.CountString "0" ":") with 0. lia.
  - apply appendHexLoop_colons.
Qed.

(** The printing loop only appends. *)
Lemma printGroups_colons_mono (fuel : nat) (p : list Z) (e0 e1 : Z) (i : nat) (b : string) :
  strings.CountString b ":" <= strings.CountString (net.printGroups fuel p e0 e1 i b) ":".
Proof.
  revert i b. induction fuel as [|f IH]; intros i b; cbn [net.printGroups]; [lia|].
  destruct (i <? 16)%nat; [|lia].
  destruct (Z.of_nat i =? e0).
  - assert (Hb : strings.CountString (b +:+ "::") ":" = strings.CountString b ":" + 2)
      by (rewrite CountString_app; reflexivity).
    destruct (16 <=? Z.to_nat e1)%nat; [lia|].
    etransitivity; [|apply IH]. rewrite appendHex_colons. lia.
  - etransitivity; [|apply IH]. rewrite appendHex_colons.
    destruct (0 <? i)%nat; [rewrite CountString_app|]; pose proof (CountString_nonneg ":" ":"); lia.
Qed.

(** Round [k] of the printing loop, entered before any "::" was written,
    has written [k - 1] colons; the loop ends with at least two. *)
Lemma printGroups_colons_rounds (fuel k : nat) (p : list Z) (e0 e1 : Z) (b : string) :
  (fuel + k = 8)%nat ->
  strings.CountString b ":" = Z.of_nat (Nat.pred k) ->
  2 <= strings.CountString (net.printGroups fuel p e0 e1 (2 * k) b) ":".
Proof.
  revert k b. induction fuel as [|f IH]; intros k b Hk Hb.
  - cbn [net.printGroups]. rewrite Hb. lia.
  - cbn [net.printGroups].
    assert (Hlt : (2 * k <? 16)%nat = true) by (apply Nat.ltb_lt; lia).
    rewrite Hlt.
    destruct (Z.of_nat (2 * k) =? e0).
    + assert (Hb2 : strings.CountString (b +:+ "::") ":" = strings.CountString b ":" + 2)
        by (rewrite CountString_app; reflexivity).
      destruct (16 <=? Z.to_nat e1)%nat; [lia|].
      etransitivity; [|apply printGroups_colons_mono]. rewrite appendHex_colons. lia.
    + replace (2 * k + 2)%nat with (2 * S k)%nat by lia.
      apply IH; [lia|]. rewrite appendHex_colons.
      destruct k as [|k'].
      * change (0 <? 2 * 0)%nat with false. cbn iota. rewrite Hb. reflexivity.
      * assert (Hpos : (0 <? 2 * S k')%nat = true) by (apply Nat.ltb_lt; lia).
        rewrite Hpos, CountString_app, Hb.
        change (strings.CountString ":" ":") with 1. simpl Nat.pred. lia.
Qed.

Lemma printGroups_two_colons (p : list Z) (e0 e1 : Z) :
  2 <= strings.CountString (net.printGroups 8 p e0 e1 0 "") ":".
Proof. apply (printGroups_colons_rounds 8 0); reflexivity. Qed.

Lemma To4_Some_length (ip : net.IP) (q : list Z) :
  net.To4 ip = Some q -> length q = 4%nat /\ (net.len ip = 4 \/ net.len ip = 16).
Proof.
  unfold net.To4, net.len, net.IPv4len, net.IPv6len.
  destruct (Z.of_nat (length (net.bytes ip)) =? 4) eqn:E4.
  - intros ->. apply Z.eqb_eq in E4. unfold net.bytes in *.
    split; lia.
  - destruct (Z.of_nat (length (net.bytes ip)) =? 16) eqn:E16; simpl; [|discriminate].
    destruct (net.isZeros _ && _ && _); [|discriminate].
    intros [= <-]. apply Z.eqb_eq in E16. rewrite length_drop. split; lia.
Qed.

(** An IPv4 address prints in dotted form, which has no colon. *)
Lemma String_To4_isIPv4 (ip : net.IP) (q : list Z) :
  net.To4 ip = Some q -> godns.isIPv4 (net.String_ ip) = true.
Proof.
  intros Hq. destruct (To4_Some_length ip q Hq) as [Hlen Hip].
  unfold net.String_. rewrite Hq.
  assert (H0 : (net.len ip =? 0) = false) by (apply Z.eqb_neq; lia).
  rewrite H0.
  destruct q as [|a [|b [|c [|d [|x q]]]]]; try discriminate Hlen.
  unfold godns.isIPv4, strings.Count1.
  rewrite !CountString_app, !uitoa_colons.
  reflexivity.
Qed.

Lemma digitChar_not_LF (n : Z) :
  Ascii.eqb (strconv.digitChar (n mod 10)) LF = false.
Proof.
  assert (H : 0 <= n mod 10 < 10) by (apply Z.mod_pos_bound; lia).
  assert (Hc : n mod 10 = 0 \/ n mod 10 = 1 \/ n mod 10 = 2 \/ n mod 10 = 3
               \/ n mod 10 = 4 \/ n mod 10 = 5 \/ n mod 10 = 6 \/ n mod 10 = 7
               \/ n mod 10 = 8 \/ n mod 10 = 9) by lia.
  repeat (destruct Hc as [Hc|Hc]; [rewrite Hc; reflexivity|]).
  rewrite Hc. reflexivity.
Qed.

Lemma uitoaLoop_newlines (fuel : nat) (n : Z) (acc : string) :
  strings.CountString (strconv.uitoaLoop fuel n acc) LF = strings.CountString acc LF.
Proof.
  revert n acc. induction fuel as [|f IH]; intros n acc; simpl; [reflexivity|].
  destruct (n <? 10).
  - rewrite CountString_cons, digitChar_not_LF. lia.
  - rewrite IH, CountString_cons, digitChar_not_LF. lia.
Qed.

Lemma uitoa_newlines (n : Z) : strings.CountString (strconv.uitoa n) LF = 0.
Proof. unfold strconv.uitoa. rewrite uitoaLoop_newlines. reflexivity. Qed.

(** The dotted form of an IPv4 address holds no newline. *)
Lemma String_To4_newlines (ip : net.IP) (q : list Z) :
  net.To4 ip = Some q -> strings.CountString (net.String_ ip) LF = 0.
Proof.
  intros Hq. destruct (To4_Some_length ip q Hq) as [Hlen Hip].
  unfold net.String_. rewrite Hq.
  assert (H0 : (net.len ip =? 0) = false) by (apply Z.eqb_neq; lia).
  rewrite H0.
  destruct q as [|a [|b [|c [|d [|x q]]]]]; try discriminate Hlen.
  rewrite !CountString_app, !uitoa_newlines.
  reflexivity.
Qed.

(** A 16-byte address that is not an IPv4 address prints with at least two
    colons. *)
Lemma String_IPv6_not_isIPv4 (ip : net.IP) :
  net.len ip = 16 -> net.To4 ip = None -> godns.isIPv4 (net.String_ ip) = false.
Proof.
  intros Hlen Hno. unfold net.String_. rewrite Hno, Hlen. cbn [Z.eqb negb net.IPv6len].
  change (16 =? 0) with false. change (16 =? 16) with true. cbn [negb].
  destruct (net.findRun 8 (net.bytes ip) 0 (-1) (-1)) as [e0 e1].
  destruct (e1 - e0 <=? 2);
    unfold godns.isIPv4, strings.Count1; apply Z.ltb_ge; apply printGroups_two_colons.
Qed.

(* ===================================================================== *)
(** * Part 13: the IP resolver                                          *)
(* ===================================================================== *)

Lemma quiet_nil : quiet [].
Proof. split; reflexivity. Qed.

Lemma quiet_app (a b : list Event) : quiet a -> quiet b -> quiet (a ++ b).
Proof.
  intros [Ha1 Ha2] [Hb1 Hb2]. split.
  - rewrite providerCalls_app, Ha1, Hb1. reflexivity.
  - rewrite mailsSent_app, Ha2, Hb2. reflexivity.
Qed.

Lemma quiet_log (text : string) : quiet [EvLog text].
Proof. split; reflexivity. Qed.

Ltac quiet_tac :=
  repeat first [ apply quiet_app | apply quiet_nil | apply quiet_log
               | assumption | (split; reflexivity) ].

Ltac in_tac := rewrite ?in_app_iff; simpl; auto 20.

Section Resolver.
Context (W : World) (cfg : Settings).

(** [GetIPOnline] returns; it sends nothing to the provider; its result is
    either an error with the empty string, or the body of the answer with the
    newlines around it removed. *)
Lemma GetIPOnline_post (tr : Trace) :
  post (godns.GetIPOnline W cfg) tr
       (fun o evs =>
          quiet evs
          /\ ((exists e, o = Ok (EmptyString, Some e))
              \/ (exists body, o = Ok (strings.Trim1 body LF, None)
                               /\ In (EvHttpGet (IPUrl cfg) (inl body)) evs))).
Proof.
  unfold godns.GetIPOnline.
  destruct (negb (String.eqb (Socks5Proxy cfg) "")).
  - msteps. cbn beta.
    destruct (w_socks5 W _ _) as [err|] eqn:Es.
    + msteps. split; [quiet_tac | left; eauto].
    + msteps. cbn beta.
      match goal with |- context [w_httpGet W ?t ?u] => destruct (w_httpGet W t u) as [body|err] eqn:Eg end.
      * msteps. split; [quiet_tac | right]. exists body. split; [reflexivity|].
        in_tac.
      * msteps. split; [quiet_tac | left; eauto].
  - msteps. cbn beta.
    match goal with |- context [w_httpGet W ?t ?u] => destruct (w_httpGet W t u) as [body|err] eqn:Eg end.
    + msteps. split; [quiet_tac | right]. exists body. split; [reflexivity|].
      in_tac.
    + msteps. split; [quiet_tac | left; eauto].
Qed.

(** [GetIPFromInterface] returns; it sends nothing to the provider. *)
Lemma GetIPFromInterface_post (tr : Trace) :
  post (godns.GetIPFromInterface W cfg) tr
       (fun o evs => quiet evs /\ exists r, o = Ok r).
Proof.
  unfold godns.GetIPFromInterface. msteps. cbn beta.
  destruct (w_interfaceByName W tr (IPInterface cfg)) as [ifc|err].
  - msteps. cbn beta.
    match goal with |- context [w_interfaceAddrs W ?t ?u] => destruct (w_interfaceAddrs W t u) as [addrs|err] end.
    + msteps. split; [quiet_tac | eauto].
    + msteps. split; [quiet_tac | eauto].
  - msteps. split; [quiet_tac | eauto].
Qed.

(** [GetCurrentIP] returns, and the error it returns is nil whatever
    happened: the only error value it can return is the function-level
    variable that is never assigned. *)
Lemma GetCurrentIP_post (tr : Trace) :
  post (godns.GetCurrentIP W cfg) tr
       (fun o evs => quiet evs /\ exists ip, o = Ok (ip, None)).
Proof.
  unfold godns.GetCurrentIP.
  apply post_bind_with with
    (P := fun o evs => quiet evs /\ exists r : option string, o = Ok r).
  - destruct (negb (String.eqb (IPUrl cfg) "")).
    + eapply post_bind_with; [apply GetIPOnline_post|].
      intros o evs [Hq [[e ->]|[body [-> _]]]]; cbn beta iota.
      * msteps. split; [quiet_tac | eauto].
      * msteps. split; [quiet_tac | eauto].
    + msteps. split; [quiet_tac | eauto].
  - intros o evs [Hq [r ->]]. destruct r as [ip|].
    + msteps. split; [quiet_tac | eauto].
    + apply post_bind_with with
        (P := fun o evs => quiet evs /\ exists r : option string, o = Ok r).
      * destruct (negb (String.eqb (IPInterface cfg) "")).
        -- eapply post_bind_with; [apply GetIPFromInterface_post|].
           intros o evs' [Hq' [[ip [e|]] ->]]; cbn beta iota.
           ++ msteps. split; [quiet_tac | eauto].
           ++ msteps. split; [quiet_tac | eauto].
        -- msteps. split; [quiet_tac | eauto].
      * intros o evs' [Hq' [r ->]]. destruct r as [ip|].
        -- msteps. split; [quiet_tac | eauto].
        -- msteps. split; [quiet_tac | eauto].
Qed.

End Resolver.

(** C3 (the code departs from the claim).  With neither an echo URL nor an
    interface configured, [GetCurrentIP] returns the empty string with a nil
    error, and leaves no trace; and on every configuration, in every world, in
    particular when both configured sources fail, the error it returns is
    nil. *)
Theorem GetCurrentIP_returns_nil_error :
  (forall (W : World) (tr : Trace),
      godns.GetCurrentIP W (exampleSettings "" "" false) tr = (Ok (EmptyString, None), tr))
  /\ godns.GetCurrentIP worldNoAddress
       (exampleSettings "https://myip.example.com" "eth0" false) []
     = (Ok (EmptyString, None),
        [ EvHttpGet "https://myip.example.com" (inr timeoutError);
          EvLog "Cannot get IP...";
          EvLog "get ip online failed. Fallback to get ip from interface if possible.";
          EvInterfaceByName "eth0" (inl (net.mkInterface 2 "eth0"));
          EvInterfaceAddrs (net.mkInterface 2 "eth0")
            (inr (mkError "route ip+net: no such network interface"));
          EvLog "can't get address from eth0: route ip+net: no such network interface";
          EvLog "get ip from interface failed. There is no more ways to try." ])
  /\ (forall (W : World) (cfg : Settings) (tr : Trace),
         exists ip tr', godns.GetCurrentIP W cfg tr = (Ok (ip, None), tr')).
Proof.
  split; [|split].
  - intros W tr. reflexivity.
  - vm_compute. reflexivity.
  - intros W cfg tr.
    destruct (GetCurrentIP_post W cfg tr) as (o & evs & Hrun & _ & ip & ->).
    eauto.
Qed.

(** When the echo service answers, its answer is the result and the
    interface is not consulted. *)
Lemma GetCurrentIP_online_first (W : World) (cfg : Settings) (tr tr1 : Trace) (ip : string) :
  IPUrl cfg <> EmptyString ->
  godns.GetIPOnline W cfg tr = (Ok (ip, None), tr1) ->
  godns.GetCurrentIP W cfg tr = (Ok (ip, None), tr1).
Proof.
  intros Hurl Hon. unfold godns.GetCurrentIP.
  apply String.eqb_neq in Hurl. rewrite Hurl. cbn [negb].
  rewrite !run_bind, Hon. reflexivity.
Qed.

(** C6.  With an echo URL and an interface both configured, the echo service
    is asked first; when it fails and the interface then yields an address,
    that address is returned with a nil error.  The failure of the echo
    service leaves only a log line. *)
Theorem GetCurrentIP_falls_back_to_interface
    (W : World) (cfg : Settings) (tr tr1 tr2 : Trace) (x ip : string) (e : error) :
  IPUrl cfg <> EmptyString ->
  IPInterface cfg <> EmptyString ->
  godns.GetIPOnline W cfg tr = (Ok (x, Some e), tr1) ->
  godns.GetIPFromInterface W cfg
    (tr1 ++ [EvLog "get ip online failed. Fallback to get ip from interface if possible."])
  = (Ok (ip, None), tr2) ->
  godns.GetCurrentIP W cfg tr = (Ok (ip, None), tr2).
Proof.
  intros Hurl Hif Hon Hiface. unfold godns.GetCurrentIP.
  apply String.eqb_neq in Hurl. apply String.eqb_neq in Hif.
  rewrite Hurl, Hif. cbn [negb].
  rewrite !run_bind, Hon. rewrite !run_bind, run_log. cbn beta iota.
  rewrite run_ret. rewrite !run_bind, Hiface. reflexivity.
Qed.

(** The fallback on a concrete world: the echo service times out and the
    interface eth0 has the address 192.168.1.20. *)
Lemma GetCurrentIP_falls_back_witness :
  godns.GetCurrentIP worldEchoDown (exampleSettings "https://myip.example.com" "eth0" false) []
  = (Ok ("192.168.1.20"%string, None),
     [ EvHttpGet "https://myip.example.com" (inr timeoutError);
       EvLog "Cannot get IP...";
       EvLog "get ip online failed. Fallback to get ip from interface if possible.";
       EvInterfaceByName "eth0" (inl (net.mkInterface 2 "eth0"));
       EvInterfaceAddrs (net.mkInterface 2 "eth0") (inl exampleAddrs) ]).
Proof.
  apply (GetCurrentIP_falls_back_to_interface worldEchoDown
           (exampleSettings "https://myip.example.com" "eth0" false) []
           [ EvHttpGet "https://myip.example.com" (inr timeoutError);
             EvLog "Cannot get IP..." ]
           _ EmptyString "192.168.1.20" timeoutError).
  - discriminate.
  - discriminate.
  - reflexivity.
  - vm_compute. reflexivity.
Defined.

(* ===================================================================== *)
(** * Part 14: the interface resolver                                   *)
(* ===================================================================== *)

Lemma To4_Some_not_interface_local (ip : net.IP) (q : list Z) :
  net.To4 ip = Some q -> net.IsInterfaceLocalMulticast ip = false.
Proof.
  unfold net.To4, net.IsInterfaceLocalMulticast, net.IPv4len, net.IPv6len.
  destruct (net.len ip =? 4) eqn:E4.
  - intros _. apply Z.eqb_eq in E4. rewrite E4. reflexivity.
  - destruct (net.len ip =? 16); [|discriminate]. cbn [andb].
    destruct ip as [[|b0 p]|]; cbn [net.bytes]; try discriminate.
    cbn [take net.isZeros forallb net.at_ nth].
    destruct (Z.eqb_spec b0 255) as [->|Hne]; [|reflexivity].
    cbn [Z.eqb andb]. discriminate.
Qed.

Lemma To4_None_len (ip : net.IP) :
  net.To4 ip = None -> net.len ip <> 4.
Proof.
  unfold net.To4, net.IPv4len. intros H E. rewrite E in H. cbn in H.
  destruct ip; [discriminate|]. unfold net.len in E. simpl in E. lia.
Qed.

(** The test made by the loop of [GetIPFromInterface] is the conjunction
    of the listed filters with one more: the address must not be the IPv4
    limited broadcast address, which [IsGlobalUnicast] rejects. *)
Lemma interface_filter_eq (ip : net.IP) :
  godns.passesClassFilter ip && godns.isIPv4 (net.String_ ip)
  = listedFilters ip && negb (net.Equal ip net.IPv4bcast).
Proof.
  unfold listedFilters, isIPv4Address.
  destruct (net.To4 ip) as [q|] eqn:Hq.
  - rewrite (String_To4_isIPv4 ip q Hq).
    unfold godns.passesClassFilter, net.IsGlobalUnicast.
    rewrite (To4_Some_not_interface_local ip q Hq).
    destruct (To4_Some_length ip q Hq) as [_ [-> | ->]];
      unfold net.IPv4len, net.IPv6len; cbn [Z.eqb Pos.eqb orb andb];
      destruct (net.Equal ip net.IPv4bcast), (net.IsUnspecified ip),
        (net.IsLoopback ip), (net.IsMulticast ip), (net.IsLinkLocalUnicast ip),
        (net.IsLinkLocalMulticast ip); reflexivity.
  - rewrite !andb_false_r. cbn [andb].
    destruct (Z.eq_dec (net.len ip) 16) as [H16|H16].
    + rewrite (String_IPv6_not_isIPv4 ip H16 Hq). apply andb_false_r.
    + pose proof (To4_None_len ip Hq) as H4.
      unfold godns.passesClassFilter, net.IsGlobalUnicast, net.IPv4len, net.IPv6len.
      apply Z.eqb_neq in H4. apply Z.eqb_neq in H16. rewrite H4, H16. reflexivity.
Qed.

(** The loop returns the first address that passes its test. *)
Lemma scanAddrs_firstPassing (name : string) (addrs : list net.Addr) :
  godns.scanAddrs name addrs
  = interfaceAnswer name
      (firstPassing (fun ip => listedFilters ip && negb (net.Equal ip net.IPv4bcast)) addrs).
Proof.
  unfold firstPassing. induction addrs as [|addr rest IH]; [reflexivity|].
  cbn [godns.scanAddrs map find].
  destruct (godns.addrIP addr) as [p|] eqn:Ha.
  - rewrite <- interface_filter_eq.
    destruct (godns.passesClassFilter (Some p)); cbn [negb andb]; [|exact IH].
    destruct (godns.isIPv4 (net.String_ (Some p))); cbn [negb]; [reflexivity | exact IH].
  - change (listedFilters None && negb (net.Equal None net.IPv4bcast)) with false.
    cbn iota. exact IH.
Qed.

Lemma find_some_holds {A} (f : A -> bool) (l : list A) (x : A) :
  find f l = Some x -> f x = true /\ In x l.
Proof. intros H. apply find_some in H. tauto. Qed.

(** What the loop returns does not end with a newline. *)
Lemma scanAddrs_no_newline (name : string) (addrs : list net.Addr) :
  strings.TrimRight1 (fst (godns.scanAddrs name addrs)) LF = fst (godns.scanAddrs name addrs).
Proof.
  rewrite scanAddrs_firstPassing.
  destruct (firstPassing _ addrs) as [ip|] eqn:Hc; cbn [interfaceAnswer fst]; [|reflexivity].
  apply find_some_holds in Hc. destruct Hc as [Hf _].
  unfold listedFilters, isIPv4Address in Hf.
  destruct (net.To4 ip) as [q|] eqn:Hq.
  - apply trimRightByte_no_byte, (String_To4_newlines ip q Hq).
  - rewrite !andb_false_r in Hf. discriminate Hf.
Qed.

(** C5 (as stated, refuted).  An interface that reports 255.255.255.255
    before 10.0.0.1: the first address that passes the listed filters is
    255.255.255.255, and [GetIPFromInterface] returns 10.0.0.1. *)
Lemma GetIPFromInterface_broadcast_counterexample :
  firstPassing listedFilters broadcastFirstAddrs = Some (Some [255; 255; 255; 255])
  /\ godns.GetIPFromInterface worldBroadcastFirst (exampleSettings "" "eth0" false) []
     = (Ok ("10.0.0.1"%string, None),
        [ EvInterfaceByName "eth0" (inl (net.mkInterface 2 "eth0"));
          EvInterfaceAddrs (net.mkInterface 2 "eth0") (inl broadcastFirstAddrs) ])
  /\ interfaceAnswer "eth0" (firstPassing listedFilters broadcastFirstAddrs)
     <> godns.scanAddrs "eth0" broadcastFirstAddrs.
Proof.
  split; [|split].
  - vm_compute. reflexivity.
  - vm_compute. reflexivity.
  - vm_compute. discriminate.
Qed.

(** C5 (amended).  When the OS reports the addresses [addrs] for the
    configured interface, [GetIPFromInterface] returns the text of the first
    address, in the reported order, that passes the listed filters (not
    unspecified, not multicast, not loopback, not link-local, IPv4) and is
    not the limited broadcast address 255.255.255.255; it returns an error
    when there is none.  An address it returns is therefore never
    unspecified, multicast, loopback, link-local or non-IPv4. *)
Theorem GetIPFromInterface_first_qualifying
    (W : World) (cfg : Settings) (tr : Trace) (iface : net.Interface)
    (addrs : list net.Addr) :
  w_interfaceByName W tr (IPInterface cfg) = inl iface ->
  w_interfaceAddrs W (tr ++ [EvInterfaceByName (IPInterface cfg) (inl iface)]) iface
  = inl addrs ->
  let choice :=
    firstPassing (fun ip => listedFilters ip && negb (net.Equal ip net.IPv4bcast)) addrs in
  godns.GetIPFromInterface W cfg tr
  = (Ok (interfaceAnswer (IPInterface cfg) choice),
     tr ++ [EvInterfaceByName (IPInterface cfg) (inl iface)]
        ++ [EvInterfaceAddrs iface (inl addrs)])
  /\ (forall ip, choice = Some ip ->
        In ip (map godns.addrIP addrs)
        /\ net.IsUnspecified ip = false
        /\ net.IsMulticast ip = false
        /\ net.IsLoopback ip = false
        /\ net.IsLinkLocalUnicast ip = false
        /\ net.IsLinkLocalMulticast ip = false
        /\ net.To4 ip <> None
        /\ net.Equal ip net.IPv4bcast = false).
Proof.
  intros Hif Haddrs choice. split.
  - unfold godns.GetIPFromInterface.
    rewrite run_bind, run_ask, Hif. cbn beta iota.
    rewrite run_bind, run_ask, Haddrs. cbn beta iota.
    rewrite run_ret, scanAddrs_firstPassing, <- app_assoc. reflexivity.
  - intros ip Hc. apply find_some_holds in Hc. destruct Hc as [Hf Hin].
    split; [exact Hin|].
    unfold listedFilters, isIPv4Address in Hf.
    rewrite !andb_true_iff, !negb_true_iff in Hf.
    destruct Hf as [[[[[[HU HM] HL] HLU] HLM] H4] HB].
    repeat split; try assumption.
    destruct (net.To4 ip); [discriminate | discriminate H4].
Qed.

(** The first qualifying address on a concrete interface: 127.0.0.1 and
    fe80::1 are passed over, 192.168.1.20 is returned. *)
Lemma GetIPFromInterface_first_qualifying_witness :
  godns.GetIPFromInterface worldEchoDown (exampleSettings "" "eth0" false) []
  = (Ok ("192.168.1.20"%string, None),
     [ EvInterfaceByName "eth0" (inl (net.mkInterface 2 "eth0"));
       EvInterfaceAddrs (net.mkInterface 2 "eth0") (inl exampleAddrs) ]).
Proof.
  exact (proj1 (GetIPFromInterface_first_qualifying worldEchoDown
                  (exampleSettings "" "eth0" false) [] (net.mkInterface 2 "eth0")
                  exampleAddrs eq_refl eq_refl)).
Defined.

(* ===================================================================== *)
(** * Part 15: the DNSPod calls                                         *)
(* ===================================================================== *)

Section DNSPodCalls.
Context (W : World) (handler : dnspod.Handler).

Lemma GetHttpClient_post (tr : Trace) :
  post (godns.GetHttpClient W (dnspod.Configuration handler)) tr
       (fun o evs => quiet evs /\ exists client, o = Ok client).
Proof.
  unfold godns.GetHttpClient.
  destruct (negb (String.eqb (Socks5Proxy (dnspod.Configuration handler)) "")).
  - msteps. destruct (w_socks5 W _ _) as [err|].
    + msteps. split; [quiet_tac | eauto].
    + msteps. split; [quiet_tac | eauto].
  - msteps. split; [quiet_tac | eauto].
Qed.

(** [PostData] returns; it sends at most one request, and exactly one when
    it reports no error. *)
Lemma PostData_post (url : string) (content : Values) (tr : Trace) :
  post (dnspod.PostData W handler url content) tr
       (fun o evs =>
          mailsSent evs = []
          /\ exists resp err,
               o = Ok (resp, err)
               /\ (providerCalls evs = []
                   \/ providerCalls evs = [postRequest handler url content])
               /\ (err = None -> providerCalls evs = [postRequest handler url content])).
Proof.
  unfold dnspod.PostData.
  eapply post_bind_with; [apply GetHttpClient_post|].
  intros o evs [[Hc Hm] [client ->]]. destruct client; cbn [negb].
  - msteps.
    match goal with
    | |- context [w_httpDo W ?t ?r] => destruct (w_httpDo W t r) as [resp|err]
    end.
    + msteps. split; [trace_tac|]. eexists _, _. split; [reflexivity|].
      split; [right|intros _]; trace_tac.
    + msteps. split; [trace_tac|]. eexists _, _. split; [reflexivity|].
      split; [right; trace_tac | discriminate].
  - msteps. split; [trace_tac|]. eexists _, _. split; [reflexivity|].
    split; [left; trace_tac | discriminate].
Qed.

(** The scans of the decoded lists do not touch the trace. *)
Lemma scanDomains_run (name : string) (domains : list JSON) (ret : Z) (tr : Trace) :
  exists o, dnspod.scanDomains name domains ret tr = (o, tr).
Proof.
  induction domains as [|d rest IH]; cbn [dnspod.scanDomains]; [eexists; reflexivity|].
  destruct d; try (eexists; reflexivity).
  destruct (simplejson.mapIndex m "name"); try exact IH.
  destruct (String.eqb s name); [eexists; reflexivity | exact IH].
Qed.

Lemma scanRecords_run (name : string) (records : list JSON) (ret ip : string) (tr : Trace) :
  exists o, dnspod.scanRecords name records ret ip tr = (o, tr).
Proof.
  induction records as [|d rest IH]; cbn [dnspod.scanRecords]; [eexists; reflexivity|].
  destruct d; try (eexists; reflexivity).
  destruct (simplejson.mapIndex m "name"); try exact IH.
  destruct (String.eqb s name); [|exact IH].
  destruct (simplejson.mapIndex m "id"); try (eexists; reflexivity).
  destruct (simplejson.mapIndex m "value"); eexists; reflexivity.
Qed.

Lemma scanDomains_post (name : string) (domains : list JSON) (ret : Z) (tr : Trace)
      (Q : Outcome Z -> list Event -> Prop) :
  (forall o, Q o []) -> post (dnspod.scanDomains name domains ret) tr Q.
Proof.
  intros HQ. destruct (scanDomains_run name domains ret tr) as [o Ho].
  exists o, []. rewrite app_nil_r. auto.
Qed.

Lemma scanRecords_post (name : string) (records : list JSON) (ret ip : string) (tr : Trace)
      (Q : Outcome (string * string) -> list Event -> Prop) :
  (forall o, Q o []) -> post (dnspod.scanRecords name records ret ip) tr Q.
Proof.
  intros HQ. destruct (scanRecords_run name records ret ip tr) as [o Ho].
  exists o, []. rewrite app_nil_r. auto.
Qed.

(** [GetDomain] sends at most the Domain.List request, and has sent it
    whenever it returns anything but -1. *)
Lemma GetDomain_post (name : string) (tr : Trace) :
  post (dnspod.GetDomain W handler name) tr
       (fun o evs =>
          mailsSent evs = []
          /\ (providerCalls evs = [] \/ providerCalls evs = [domainListRequest handler])
          /\ (forall id, o = Ok id -> id <> -1 ->
                providerCalls evs = [domainListRequest handler])).
Proof.
  unfold dnspod.GetDomain.
  eapply post_bind_with; [apply PostData_post|].
  intros o evs (Hm & resp & err & -> & Hc & Hok). cbn beta iota.
  change (Values_Add (Values_Add (Values_Add [] "type" "all") "offset" "0") "length" "20")
    with domainListForm in *.
  fold (domainListRequest handler) in *.
  destruct err as [e|].
  - msteps. split; [trace_tac|]. split.
    + destruct Hc as [Hc|Hc]; [left | right]; trace_tac.
    + intros id [= <-] Hne. contradiction Hne. reflexivity.
  - specialize (Hok eq_refl).
    destruct (w_NewJson W resp) as [sjson|parseErr].
    + destruct (String.eqb (dnspod.statusCode sjson) "1").
      * mstep. apply scanDomains_post. intros [ret|v]; [|split; [|split]].
        -- mstep.
           destruct (length (fst (simplejson.Array (simplejson.Get sjson "domains"))) =? 0)%nat;
             msteps; (split; [trace_tac|]); (split; [right; trace_tac | intros; trace_tac]).
        -- trace_tac.
        -- right. trace_tac.
        -- intros id [=].
      * msteps. split; [trace_tac|]. split; [right; trace_tac | intros; trace_tac].
    + msteps. split; [trace_tac|]. split; [right; trace_tac|].
      intros id [= <-] Hne. contradiction Hne. reflexivity.
Qed.

(** [GetSubDomain] sends at most the Record.List request. *)
Lemma GetSubDomain_post (domainID : Z) (name : string) (tr : Trace) :
  post (dnspod.GetSubDomain W handler domainID name) tr
       (fun o evs =>
          mailsSent evs = []
          /\ (providerCalls evs = []
              \/ providerCalls evs = [recordListRequest handler domainID name])).
Proof.
  unfold dnspod.GetSubDomain. mstep. mstep. cbn beta.
  eapply post_bind_with; [apply PostData_post|].
  intros o evs (Hm & resp & err & -> & Hc & Hok). cbn beta iota.
  change (Values_Add (Values_Add (Values_Add (Values_Add [] "domain_id"
            (strconv.FormatInt domainID)) "offset" "0") "length" "1") "sub_domain" name)
    with (recordListForm domainID name) in *.
  fold (recordListRequest handler domainID name) in *.
  assert (Hc' : forall tl : list Event,
             providerCalls tl = [] ->
             providerCalls ([EvLog ("debug: " +:+ strconv.FormatInt domainID +:+ " " +:+ name)]
                              ++ evs ++ tl) = []
             \/ providerCalls ([EvLog ("debug: " +:+ strconv.FormatInt domainID +:+ " " +:+ name)]
                                 ++ evs ++ tl)
                = [recordListRequest handler domainID name]).
  { intros tl Htl. destruct Hc as [Hc|Hc]; [left | right]; trace_tac. }
  destruct err as [e|].
  - msteps. split; [trace_tac | apply Hc'; reflexivity].
  - destruct (w_NewJson W resp) as [sjson|parseErr].
    + destruct (String.eqb (dnspod.statusCode sjson) "1").
      * mstep. apply scanRecords_post. intros [r|v].
        -- mstep.
           destruct (length (fst (simplejson.Array (simplejson.Get sjson "records"))) =? 0)%nat;
             msteps; (split; [trace_tac | apply (Hc' (_ ++ _)); reflexivity]).
        -- split; [trace_tac | apply Hc'; reflexivity].
      * msteps. split; [trace_tac | apply Hc'; reflexivity].
    + msteps. split; [trace_tac | apply Hc'; reflexivity].
Qed.



End DNSPodCalls.

(* ===================================================================== *)
(** * Part 16: one round of the DNSPod domain loop                      *)
(* ===================================================================== *)

Section DNSPodRound.
Context (W : World) (handler : dnspod.Handler) (domain : Domain).

Local Abbreviation cfg := (dnspod.Configuration handler).
Local Abbreviation checking := (EvLog ("Checking IP for domain " +:+ DomainName domain)).
Local Abbreviation sleeping :=
  [ EvLog ("Going to sleep, will start next checking in "
           +:+ strconv.FormatInt (Interval cfg) +:+ " seconds...");
    EvSleep (wrap64 (1000000000 * wrap64 (Interval cfg))) ].

Lemma sleepInterval_run (tr : Trace) :
  dnspod.sleepInterval handler tr = (Ok tt, tr ++ sleeping).
Proof.
  unfold dnspod.sleepInterval. cbv zeta. rewrite run_bind, run_log. cbn beta iota.
  rewrite run_emit, <- app_assoc. reflexivity.
Qed.

(** The domain lookup returned -1: the round ends at once, without sleep. *)
Lemma loopBody_lookup_failed (lastIP : string) (tr tr1 : Trace) :
  dnspod.GetDomain W handler (DomainName domain) (tr ++ [checking]) = (Ok (-1), tr1) ->
  dnspod.loopBody W handler domain lastIP tr = (Ok lastIP, tr1).
Proof.
  intros Hd. unfold dnspod.loopBody.
  rewrite run_bind, run_log. cbn beta iota. rewrite run_bind.
  rewrite Hd. reflexivity.
Qed.

(** The resolved IP equals the cached one: log, sleep. *)
Lemma loopBody_unchanged (lastIP : string) (id : Z) (tr tr1 tr2 : Trace) :
  dnspod.GetDomain W handler (DomainName domain) (tr ++ [checking]) = (Ok id, tr1) ->
  id <> -1 ->
  godns.GetCurrentIP W cfg tr1 = (Ok (lastIP, None), tr2) ->
  dnspod.loopBody W handler domain lastIP tr
  = (Ok lastIP,
     tr2 ++ [EvLog ("currentIP is: " +:+ lastIP);
             EvLog "IP is the same as cached one. Skip update."] ++ sleeping).
Proof.
  intros Hd Hid Hip. unfold dnspod.loopBody.
  rewrite run_bind, run_log. cbn beta iota. rewrite run_bind.
  rewrite Hd. cbn beta iota.
  apply Z.eqb_neq in Hid. rewrite Hid.
  rewrite run_bind. rewrite Hip. cbn beta iota.
  rewrite run_bind, run_log. cbn beta iota.
  unfold dnspod.sameAsCached. rewrite String.eqb_refl.
  mrun. rewrite sleepInterval_run. mrun. rewrite <- !app_assoc. reflexivity.
Qed.

(** The resolved IP differs from the cached one: the subdomains are
    processed in order with the new IP, then the round sleeps; the value of
    [lastIP] at the end is the new IP. *)
Lemma loopBody_changed (lastIP ip : string) (id : Z) (tr tr1 tr2 : Trace) :
  dnspod.GetDomain W handler (DomainName domain) (tr ++ [checking]) = (Ok id, tr1) ->
  id <> -1 ->
  godns.GetCurrentIP W cfg tr1 = (Ok (ip, None), tr2) ->
  ip <> lastIP ->
  dnspod.loopBody W handler domain lastIP tr
  = match forRange (SubDomains domain) (dnspod.subDomainBody W handler domain id ip)
                   (tr2 ++ [EvLog ("currentIP is: " +:+ ip)]) with
    | (Ok _, tr3) => (Ok ip, tr3 ++ sleeping)
    | (Panic v, tr3) => (Panic v, tr3)
    end.
Proof.
  intros Hd Hid Hip Hne. unfold dnspod.loopBody.
  rewrite run_bind, run_log. cbn beta iota. rewrite run_bind.
  rewrite Hd. cbn beta iota.
  apply Z.eqb_neq in Hid. rewrite Hid.
  rewrite run_bind. rewrite Hip. cbn beta iota.
  rewrite run_bind, run_log. cbn beta iota.
  unfold dnspod.sameAsCached. apply String.eqb_neq in Hne. rewrite Hne.
  rewrite !run_bind.
  destruct (forRange _ _ _) as [[[]|v] tr3]; cbn beta iota; [|reflexivity].
  mrun. rewrite sleepInterval_run. mrun. reflexivity.
Qed.

(** C1 (amended).  In a round of the DNSPod loop in which the domain lookup
    does not return -1 and the resolved IP equals the cached one, exactly one
    request goes to the provider: the Domain.List lookup made by [GetDomain]
    at the head of the round, before the IP is resolved.  No record lookup,
    no update and no mail follow. *)
Theorem DomainLoop_unchanged_round (lastIP : string) (id : Z) (tr tr1 tr2 : Trace) :
  dnspod.GetDomain W handler (DomainName domain) (tr ++ [checking]) = (Ok id, tr1) ->
  id <> -1 ->
  godns.GetCurrentIP W cfg tr1 = (Ok (lastIP, None), tr2) ->
  exists evs,
    dnspod.loopBody W handler domain lastIP tr = (Ok lastIP, tr ++ evs)
    /\ providerCalls evs = [domainListRequest handler]
    /\ mailsSent evs = [].
Proof.
  intros Hd Hid Hip.
  rewrite (loopBody_unchanged lastIP id tr tr1 tr2 Hd Hid Hip).
  destruct (post_run _ _ _ _ _ (GetDomain_post W handler (DomainName domain) (tr ++ [checking])) Hd)
    as (evs1 & -> & Hm1 & _ & Hc1).
  specialize (Hc1 id eq_refl Hid).
  destruct (post_run _ _ _ _ _ (GetCurrentIP_post W cfg _) Hip)
    as (evs2 & -> & [Hc2 Hm2] & _).
  eexists. split; [rewrite <- !app_assoc; reflexivity|].
  split; trace_tac.
Qed.

(** C2 (amended).  At the end of a round, the cached [lastIP] is unchanged
    when the domain lookup returned -1, and is otherwise the IP resolved in
    this round, whatever the provider answered to the record lookups and
    updates that followed.  The cell is thus overwritten exactly in the
    rounds that resolve an IP different from the cached one. *)
Theorem DomainLoop_lastIP_after_round
    (lastIP lastIP' : string) (id : Z) (tr tr1 tr' : Trace) :
  dnspod.GetDomain W handler (DomainName domain) (tr ++ [checking]) = (Ok id, tr1) ->
  dnspod.loopBody W handler domain lastIP tr = (Ok lastIP', tr') ->
  (id = -1 -> lastIP' = lastIP)
  /\ (id <> -1 ->
      exists tr2, godns.GetCurrentIP W cfg tr1 = (Ok (lastIP', None), tr2)).
Proof.
  intros Hd Hrun. split.
  - intros ->. rewrite (loopBody_lookup_failed lastIP tr tr1 Hd) in Hrun.
    congruence.
  - intros Hid.
    destruct (GetCurrentIP_post W cfg tr1) as (o & evs & Hip & _ & ip & ->).
    exists (tr1 ++ evs). rewrite Hip. repeat f_equal.
    destruct (String.eqb_spec ip lastIP) as [->|Hne].
    + rewrite (loopBody_unchanged lastIP id tr tr1 _ Hd Hid Hip) in Hrun. congruence.
    + rewrite (loopBody_changed lastIP ip id tr tr1 _ Hd Hid Hip Hne) in Hrun.
      destruct (forRange _ _ _) as [[[]|v] tr3]; congruence.
Qed.

End DNSPodRound.

(* ===================================================================== *)
(** * Part 17: one subdomain, and the notifier                          *)
(* ===================================================================== *)



Section DNSPodSubDomain.
Context (W : World) (handler : dnspod.Handler) (domain : Domain).

Local Abbreviation cfg := (dnspod.Configuration handler).


End DNSPodSubDomain.

(* ===================================================================== *)
(** * Part 18: the result of the domain lookup                          *)
(* ===================================================================== *)





Section DNSPodGetDomain.
Context (W : World) (handler : dnspod.Handler) (domain : Domain).

Local Abbreviation cfg := (dnspod.Configuration handler).
Local Abbreviation checking := (EvLog ("Checking IP for domain " +:+ DomainName domain)).



End DNSPodGetDomain.

(* ===================================================================== *)
(** * Part 19: the change detector                                      *)
(* ===================================================================== *)

Lemma recordDiffers_false_iff (currentIP ip : string) :
  dnspod.recordDiffers currentIP ip = false
  <-> ip = EmptyString
      \/ strings.TrimRight1 currentIP LF = strings.TrimRight1 ip LF.
Proof.
  unfold dnspod.recordDiffers, strings.len.
  rewrite andb_false_iff, negb_false_iff, String_eqb_true, Z.ltb_ge.
  split; (intros [H|H]; [left | right; exact H]).
  - destruct ip; [reflexivity | simpl in H; lia].
  - subst ip. simpl. lia.
Qed.

Lemma recordDiffers_newlines (t : string) (n m : nat) :
  dnspod.recordDiffers (t +:+ newlines n) (t +:+ newlines m) = false.
Proof.
  apply recordDiffers_false_iff. right.
  unfold strings.TrimRight1. rewrite !trimRightByte_newlines. reflexivity.
Qed.

(** A trailing byte other than the newline is not disregarded, by neither
    comparison. *)
Lemma recordDiffers_other_byte (t : string) (c : ascii) :
  c <> LF ->
  dnspod.recordDiffers t (t +:+ String c EmptyString) = true
  /\ (t <> EmptyString -> dnspod.recordDiffers (t +:+ String c EmptyString) t = true)
  /\ dnspod.sameAsCached (t +:+ String c EmptyString) t = false.
Proof.
  intros Hc. apply Ascii.eqb_neq in Hc.
  assert (Hne : forall x : string,
             (String.length x <= String.length t)%nat -> x <> t +:+ String c EmptyString).
  { intros x Hx ->. rewrite length_sapp in Hx. cbn [String.length] in Hx. lia. }
  pose proof (trimRightByte_length t LF) as Hlen.
  unfold dnspod.recordDiffers, dnspod.sameAsCached, strings.TrimRight1, strings.len.
  rewrite (trimRightByte_snoc_other t c LF Hc).
  split; [|split].
  - apply andb_true_iff. split.
    + apply Z.ltb_lt. rewrite length_sapp. cbn [String.length]. lia.
    + apply negb_true_iff, String.eqb_neq. apply Hne. exact Hlen.
  - intros Ht. apply andb_true_iff. split.
    + apply Z.ltb_lt. destruct t; [contradiction | cbn [String.length]; lia].
    + apply negb_true_iff, String.eqb_neq. intros E. symmetry in E. revert E.
      apply Hne. exact Hlen.
  - apply String.eqb_neq. intros E. symmetry in E. revert E. apply Hne. lia.
Qed.

Lemma echoBodies_app (a b : list Event) : echoBodies (a ++ b) = echoBodies a ++ echoBodies b.
Proof. apply omap_app. Qed.

(** Accounting of the answers of the echo service along a concatenation. *)
Ltac echo_tac :=
  rewrite ?echoBodies_app;
  repeat match goal with
         | H : echoBodies _ = _ |- _ => rewrite H
         end;
  cbn [echoBodies omap app];
  try reflexivity.

Section ResolverEcho.
Context (W : World) (cfg : Settings).

(** [GetIPOnline] asks the echo service at most once, and what it returns
    without error is the answer without the newlines around it. *)
Lemma GetIPOnline_echo (tr : Trace) :
  post (godns.GetIPOnline W cfg) tr
       (fun o evs =>
          (echoBodies evs = [] /\ exists e, o = Ok (EmptyString, Some e))
          \/ (exists body, echoBodies evs = [body]
                           /\ o = Ok (strings.Trim1 body LF, None))).
Proof.
  unfold godns.GetIPOnline.
  destruct (negb (String.eqb (Socks5Proxy cfg) "")).
  - msteps. cbn beta.
    destruct (w_socks5 W _ _) as [err|] eqn:Es.
    + msteps. left. split; [reflexivity | eauto].
    + msteps. cbn beta.
      match goal with
      | |- context [w_httpGet W ?t ?u] => destruct (w_httpGet W t u) as [body|err] eqn:Eg
      end.
      * msteps. right. exists body. split; reflexivity.
      * msteps. left. split; [reflexivity | eauto].
  - msteps. cbn beta.
    match goal with
    | |- context [w_httpGet W ?t ?u] => destruct (w_httpGet W t u) as [body|err] eqn:Eg
    end.
    + msteps. right. exists body. split; reflexivity.
    + msteps. left. split; [reflexivity | eauto].
Qed.

(** A run of [GetIPOnline] in which the echo service answered [body]. *)
Lemma GetIPOnline_answered (tr : Trace) (o : Outcome (string * option error))
      (evs : list Event) (body : string) :
  godns.GetIPOnline W cfg tr = (o, tr ++ evs) ->
  echoBodies evs = [body] ->
  o = Ok (strings.Trim1 body LF, None).
Proof.
  intros Hrun Hecho.
  destruct (post_run _ _ _ _ _ (GetIPOnline_echo tr) Hrun) as (evs' & Heq & Hcase).
  apply app_inv_head in Heq. subst evs'.
  destruct Hcase as [[He _]|(body' & He & ->)]; rewrite He in Hecho.
  - discriminate Hecho.
  - congruence.
Qed.

(** [GetIPFromInterface] does not ask the echo service, and what it returns
    does not end with a newline. *)
Lemma GetIPFromInterface_echo (tr : Trace) :
  post (godns.GetIPFromInterface W cfg) tr
       (fun o evs =>
          echoBodies evs = []
          /\ exists ip err, o = Ok (ip, err) /\ strings.TrimRight1 ip LF = ip).
Proof.
  unfold godns.GetIPFromInterface. msteps. cbn beta.
  destruct (w_interfaceByName W tr (IPInterface cfg)) as [ifc|err].
  - msteps. cbn beta.
    match goal with
    | |- context [w_interfaceAddrs W ?t ?u] => destruct (w_interfaceAddrs W t u) as [addrs|err]
    end.
    + msteps. split; [reflexivity|].
      pose proof (scanAddrs_no_newline (IPInterface cfg) addrs) as Hn.
      destruct (godns.scanAddrs (IPInterface cfg) addrs) as [ip err].
      exists ip, err. split; [reflexivity | exact Hn].
    + msteps. split; [reflexivity|]. eexists _, _. split; reflexivity.
  - msteps. split; [reflexivity|]. eexists _, _. split; reflexivity.
Qed.

(** What [GetCurrentIP] returns does not end with a newline; and when the
    echo service answered, it is the answer without the newlines around
    it. *)
Lemma GetCurrentIP_echo (tr : Trace) :
  post (godns.GetCurrentIP W cfg) tr
       (fun o evs =>
          exists ip,
            o = Ok (ip, None)
            /\ strings.TrimRight1 ip LF = ip
            /\ (echoBodies evs = []
                \/ exists body, echoBodies evs = [body] /\ ip = strings.Trim1 body LF)).
Proof.
  unfold godns.GetCurrentIP.
  apply post_bind_with with
    (P := fun o evs =>
            (echoBodies evs = [] /\ o = Ok None)
            \/ (exists body, echoBodies evs = [body]
                             /\ o = Ok (Some (strings.Trim1 body LF)))).
  - destruct (negb (String.eqb (IPUrl cfg) "")).
    + eapply post_bind_with; [apply GetIPOnline_echo|].
      intros o evs [[He [e ->]]|[body [He ->]]]; cbn beta iota.
      * msteps. left. split; [echo_tac | reflexivity].
      * msteps. right. exists body. split; [echo_tac | reflexivity].
    + msteps. left. split; reflexivity.
  - intros o evs [[He ->]|[body [He ->]]]; cbn beta iota.
    + apply post_bind_with with
        (P := fun o evs' =>
                echoBodies evs' = []
                /\ exists r : option string,
                     o = Ok r /\ forall ip, r = Some ip -> strings.TrimRight1 ip LF = ip).
      * destruct (negb (String.eqb (IPInterface cfg) "")).
        -- eapply post_bind_with; [apply GetIPFromInterface_echo|].
           intros o evs' [He' (ip & err & -> & Hn)]; cbn beta iota.
           destruct err as [e|]; msteps.
           ++ split; [echo_tac|]. exists None. split; [reflexivity | discriminate].
           ++ split; [echo_tac|]. exists (Some ip). split; [reflexivity|].
              intros ip' [= <-]. exact Hn.
        -- msteps. split; [reflexivity|]. exists None. split; [reflexivity | discriminate].
      * intros o evs' [He' (r & -> & Hn)]. cbn beta iota.
        destruct r as [ip|]; msteps.
        -- exists ip. split; [reflexivity|]. split; [apply Hn; reflexivity|].
           left. echo_tac.
        -- exists EmptyString. split; [reflexivity|]. split; [reflexivity|].
           left. echo_tac.
    + msteps. exists (strings.Trim1 body LF). split; [reflexivity|].
      split; [apply TrimRight1_Trim1|]. right. exists body. split; [echo_tac | reflexivity].
Qed.

(** A run of [GetCurrentIP] in which the echo service answered [body]. *)
Lemma GetCurrentIP_answered (tr : Trace) (o : Outcome (string * option error))
      (evs : list Event) (body : string) :
  godns.GetCurrentIP W cfg tr = (o, tr ++ evs) ->
  echoBodies evs = [body] ->
  o = Ok (strings.Trim1 body LF, None).
Proof.
  intros Hrun Hecho.
  destruct (post_run _ _ _ _ _ (GetCurrentIP_echo tr) Hrun)
    as (evs' & Heq & ip & -> & _ & Hcase).
  apply app_inv_head in Heq. subst evs'.
  destruct Hcase as [He|(body' & He & ->)]; rewrite He in Hecho.
  - discriminate Hecho.
  - congruence.
Qed.

(** No run of [GetCurrentIP] returns a text that ends with a newline. *)
Lemma GetCurrentIP_no_newline (tr tr' : Trace) (ip : string) (err : option error) :
  godns.GetCurrentIP W cfg tr = (Ok (ip, err), tr') ->
  strings.TrimRight1 ip LF = ip.
Proof.
  intros Hrun.
  destruct (post_run _ _ _ _ _ (GetCurrentIP_echo tr) Hrun)
    as (evs' & _ & ip' & Hip & Hn & _).
  congruence.
Qed.

End ResolverEcho.

(** Two texts without trailing newline that differ only in their trailing
    newlines are the same text. *)
Lemma trailingNewlinesOnly_trimmed (a b : string) :
  trailingNewlinesOnly a b ->
  strings.TrimRight1 a LF = a ->
  strings.TrimRight1 b LF = b ->
  a = b.
Proof.
  intros (t & n & m & -> & ->) Ha Hb. rewrite <- Ha, <- Hb.
  unfold strings.TrimRight1. rewrite !trimRightByte_newlines. reflexivity.
Qed.

Section ChangeDetector.
Context (W : World) (handler : dnspod.Handler) (domain : Domain).

Local Abbreviation cfg := (dnspod.Configuration handler).
Local Abbreviation checking := (EvLog ("Checking IP for domain " +:+ DomainName domain)).

(** C4 (amended).  Both comparisons disregard trailing newlines, and no
    other trailing byte.

    The comparison against the value of the remote record removes the
    trailing newlines from both operands: when the record lookup gave a value
    that differs from the current IP only in trailing newlines, the
    subdomain is left after one log line, without update; any other trailing
    byte, a blank or a carriage return for instance, counts as a difference
    for both comparisons.

    The comparison against the cached IP is string equality and removes
    nothing.  Its operands have no trailing newline to remove: [GetIPOnline]
    returns the answer of the echo service without the newlines around it,
    and what [GetCurrentIP] returns never ends with a newline; when the echo
    service answered it is that answer without the newlines around it.  Hence
    a cached IP and a current IP that differ only in trailing newlines are
    equal, and a round whose echo answer differs only in trailing newlines
    from the answer that gave the cached IP takes the branch "same as
    cached": it logs, sleeps, and keeps the cached IP. *)
Theorem hasChanged_trailing_newlines :
  (forall (t : string) (n m : nat),
      dnspod.recordDiffers (t +:+ newlines n) (t +:+ newlines m) = false)
  /\ (forall (domainID : Z) (subDomain subDomainID t : string) (n m : nat) (tr tr1 : Trace),
         dnspod.GetSubDomain W handler domainID subDomain tr
         = (Ok (subDomainID, t +:+ newlines m), tr1) ->
         exists text,
           dnspod.subDomainBody W handler domain domainID (t +:+ newlines n) subDomain tr
           = (Ok tt, tr1 ++ [EvLog text]))
  /\ (forall (t : string) (c : ascii),
         c <> LF ->
         dnspod.recordDiffers t (t +:+ String c EmptyString) = true
         /\ (t <> EmptyString -> dnspod.recordDiffers (t +:+ String c EmptyString) t = true)
         /\ dnspod.sameAsCached (t +:+ String c EmptyString) t = false)
  /\ (forall currentIP lastIP : string,
         dnspod.sameAsCached currentIP lastIP = true <-> currentIP = lastIP)
  /\ (forall (tr : Trace) (body : string),
         Socks5Proxy cfg = EmptyString ->
         w_httpGet W tr (IPUrl cfg) = inl body ->
         godns.GetIPOnline W cfg tr
         = (Ok (strings.Trim1 body LF, None), tr ++ [EvHttpGet (IPUrl cfg) (inl body)]))
  /\ (forall (tr : Trace) (o : Outcome (string * option error)) (evs : list Event)
             (body : string),
         godns.GetIPOnline W cfg tr = (o, tr ++ evs) ->
         echoBodies evs = [body] ->
         o = Ok (strings.Trim1 body LF, None))
  /\ (forall (tr : Trace) (o : Outcome (string * option error)) (evs : list Event)
             (body : string),
         godns.GetCurrentIP W cfg tr = (o, tr ++ evs) ->
         echoBodies evs = [body] ->
         o = Ok (strings.Trim1 body LF, None))
  /\ (forall (tr tr' : Trace) (ip : string) (err : option error),
         godns.GetCurrentIP W cfg tr = (Ok (ip, err), tr') ->
         strings.TrimRight1 ip LF = ip)
  /\ (forall (tr0 tr0' tr1 tr1' : Trace) (lastIP currentIP : string)
             (err0 err1 : option error),
         lastIP = EmptyString
         \/ godns.GetCurrentIP W cfg tr0 = (Ok (lastIP, err0), tr0') ->
         godns.GetCurrentIP W cfg tr1 = (Ok (currentIP, err1), tr1') ->
         trailingNewlinesOnly lastIP currentIP ->
         dnspod.sameAsCached currentIP lastIP = true)
  /\ (forall (tr0 tr tr1 : Trace) (evs0 evs : list Event) (lastIP t : string)
             (n m : nat) (id : Z) (o : Outcome (string * option error)),
         godns.GetCurrentIP W cfg tr0 = (Ok (lastIP, None), tr0 ++ evs0) ->
         echoBodies evs0 = [t +:+ newlines n] ->
         dnspod.GetDomain W handler (DomainName domain) (tr ++ [checking]) = (Ok id, tr1) ->
         id <> -1 ->
         godns.GetCurrentIP W cfg tr1 = (o, tr1 ++ evs) ->
         echoBodies evs = [t +:+ newlines m] ->
         dnspod.loopBody W handler domain lastIP tr
         = (Ok lastIP,
            tr1 ++ evs
              ++ [ EvLog ("currentIP is: " +:+ lastIP);
                   EvLog "IP is the same as cached one. Skip update.";
                   EvLog ("Going to sleep, will start next checking in "
                          +:+ strconv.FormatInt (Interval cfg) +:+ " seconds...");
                   EvSleep (wrap64 (1000000000 * wrap64 (Interval cfg))) ])).
Proof.
  split; [|split; [|split; [|split; [|split; [|split; [|split; [|split; [|split]]]]]]]].
  - apply recordDiffers_newlines.
  - intros domainID subDomain subDomainID t n m tr tr1 Hsub.
    unfold dnspod.subDomainBody. cbv zeta.
    rewrite run_bind, Hsub. cbn beta iota.
    destruct (String.eqb subDomainID "" || String.eqb (t +:+ newlines m) "").
    + rewrite run_log. eexists. reflexivity.
    + rewrite recordDiffers_newlines, run_log. eexists. reflexivity.
  - apply recordDiffers_other_byte.
  - intros currentIP lastIP. apply String_eqb_true.
  - intros tr body Hproxy Hget. unfold godns.GetIPOnline.
    rewrite Hproxy. cbn [String.eqb negb]. mrun. rewrite Hget. mrun. reflexivity.
  - intros tr o evs body. apply GetIPOnline_answered.
  - intros tr o evs body. apply GetCurrentIP_answered.
  - intros tr tr' ip err. apply GetCurrentIP_no_newline.
  - intros tr0 tr0' tr1 tr1' lastIP currentIP err0 err1 Hlast Hcur Hdiff.
    apply String_eqb_true. symmetry.
    apply (trailingNewlinesOnly_trimmed lastIP currentIP Hdiff).
    + destruct Hlast as [->|Hlast]; [reflexivity|].
      exact (GetCurrentIP_no_newline W cfg _ _ _ _ Hlast).
    + exact (GetCurrentIP_no_newline W cfg _ _ _ _ Hcur).
  - intros tr0 tr tr1 evs0 evs lastIP t n m id o Hlast Hecho0 Hd Hid Hcur Hecho.
    pose proof (GetCurrentIP_answered W cfg _ _ _ _ Hlast Hecho0) as Hl.
    pose proof (GetCurrentIP_answered W cfg _ _ _ _ Hcur Hecho) as ->.
    injection Hl as ->.
    rewrite !Trim1_newlines in *.
    rewrite (loopBody_unchanged W handler domain _ id tr tr1 _ Hd Hid Hcur).
    rewrite <- !app_assoc. reflexivity.
Qed.

End ChangeDetector.

(** C4 (as stated, refuted).  The claim has both comparisons trim the
    trailing newline and white-space noise of their operands.  Here the echo
    service ends its answer with "\n" in the first round and with "\r\n" in
    the second: the two answers differ only in trailing white space, the
    line end.  The resolver strips the "\n" and leaves the "\r", so the
    second round compares "1.2.3.4\r" with the cached "1.2.3.4" and finds a
    change, then compares "1.2.3.4\r" with the record value "1.2.3.4", finds
    a difference again, and sends the update and the mail. *)
Lemma hasChanged_carriage_return_counterexample :
  exists tr,
    dnspod.DomainLoop worldEchoCRLF dnspodHandler exampleDomain 2 []
    = (dnspod.Looping ("1.2.3.4" +:+ String CR ""), tr)
    /\ echoBodies tr = ["1.2.3.4" +:+ NL; "1.2.3.4" +:+ CRLF]
    /\ trailingSpaceOnly ("1.2.3.4" +:+ NL) ("1.2.3.4" +:+ CRLF)
    /\ trailingSpaceOnly "1.2.3.4" ("1.2.3.4" +:+ String CR "")
    /\ dnspod.sameAsCached ("1.2.3.4" +:+ String CR "") "1.2.3.4" = false
    /\ dnspod.recordDiffers ("1.2.3.4" +:+ String CR "") "1.2.3.4" = true
    /\ providerCalls tr
       = [ domainListRequest dnspodHandler;
           recordListRequest dnspodHandler 7 "home";
           domainListRequest dnspodHandler;
           recordListRequest dnspodHandler 7 "home";
           recordModifyRequest dnspodHandler 7 "r-16894439" "home"
             ("1.2.3.4" +:+ String CR "") ]
    /\ mailsSent tr
       = [notifyMail worldEchoCRLF (dnspod.Configuration dnspodHandler)
                     "home.example.com" ("1.2.3.4" +:+ String CR "")].
Proof.
  eexists. split; [vm_compute; reflexivity|].
  split; [vm_compute; reflexivity|].
  split; [exists "1.2.3.4"%string, NL, CRLF; repeat split; reflexivity|].
  split; [exists "1.2.3.4"%string, EmptyString, (String CR EmptyString);
          repeat split; reflexivity|].
  repeat split; vm_compute; reflexivity.
Qed.

(** The echo service ends its answer with one newline in the first round
    and with two in the second: the second round finds the cached IP
    unchanged. *)
Lemma hasChanged_trailing_newlines_witness :
  dnspod.loopBody worldEchoNewlines dnspodHandler exampleDomain "1.2.3.4" firstRound
  = (Ok "1.2.3.4"%string,
     (firstRound ++ [ EvLog "Checking IP for domain example.com";
                      EvHttpDo (domainListRequest dnspodHandler) (inl "domain-list") ])
       ++ [EvHttpGet "https://myip.example.com" (inl ("1.2.3.4" +:+ newlines 2))]
       ++ [ EvLog "currentIP is: 1.2.3.4";
            EvLog "IP is the same as cached one. Skip update.";
            EvLog "Going to sleep, will start next checking in 300 seconds...";
            EvSleep 300000000000 ])
  /\ dnspod.loopBody worldEchoNewlines dnspodHandler exampleDomain "" []
     = (Ok "1.2.3.4"%string, firstRound).
Proof.
  split; [|vm_compute; reflexivity].
  refine (proj2 (proj2 (proj2 (proj2 (proj2 (proj2 (proj2 (proj2 (proj2
            (hasChanged_trailing_newlines worldEchoNewlines dnspodHandler exampleDomain)))))))))
            [ EvLog "Checking IP for domain example.com";
              EvHttpDo (domainListRequest dnspodHandler) (inl "domain-list") ]
            firstRound _
            [EvHttpGet "https://myip.example.com" (inl ("1.2.3.4" +:+ newlines 1))]
            [EvHttpGet "https://myip.example.com" (inl ("1.2.3.4" +:+ newlines 2))]
            "1.2.3.4"%string "1.2.3.4"%string 1%nat 2%nat 7
            (Ok ("1.2.3.4"%string, None)) _ _ _ _ _ _).
  - vm_compute. reflexivity.
  - reflexivity.
  - vm_compute. reflexivity.
  - discriminate.
  - vm_compute. reflexivity.
  - reflexivity.
Defined.

(* ===================================================================== *)
(** * Part 20: the rounds on concrete worlds                            *)
(* ===================================================================== *)

Ltac in_list := vm_compute; repeat (first [left; reflexivity | right]).

(** C1 (as stated, refuted).  The echo service answers the cached IP
    1.2.3.4: the round takes the "same as cached" branch, and yet one request
    has gone to the provider, the Domain.List lookup. *)
Lemma DomainLoop_unchanged_round_counterexample :
  exists tr,
    dnspod.loopBody worldSteady dnspodHandler exampleDomain "1.2.3.4" [] = (Ok "1.2.3.4"%string, tr)
    /\ In (EvLog "IP is the same as cached one. Skip update.") tr
    /\ providerCalls tr = [domainListRequest dnspodHandler]
    /\ providerCalls tr <> [].
Proof.
  eexists. split; [vm_compute; reflexivity|].
  split; [in_list|]. split; [vm_compute; reflexivity | vm_compute; discriminate].
Qed.

(** The unchanged round on the same world, through the theorem. *)
Lemma DomainLoop_unchanged_round_witness :
  exists evs,
    dnspod.loopBody worldSteady dnspodHandler exampleDomain "1.2.3.4" []
    = (Ok "1.2.3.4"%string, [] ++ evs)
    /\ providerCalls evs = [domainListRequest dnspodHandler]
    /\ mailsSent evs = [].
Proof.
  apply (DomainLoop_unchanged_round worldSteady dnspodHandler exampleDomain "1.2.3.4" 7 []
           [ EvLog "Checking IP for domain example.com";
             EvHttpDo (domainListRequest dnspodHandler) (inl "domain-list") ]
           [ EvLog "Checking IP for domain example.com";
             EvHttpDo (domainListRequest dnspodHandler) (inl "domain-list");
             EvHttpGet "https://myip.example.com" (inl "1.2.3.4") ]).
  - vm_compute. reflexivity.
  - discriminate.
  - vm_compute. reflexivity.
Defined.

(** C2 (as stated, refuted).  The cached IP is 1.2.3.4, the echo service
    answers 5.6.7.8 and the one update call of the round fails with a
    timeout: at the end of the round the cached IP is 5.6.7.8. *)
Lemma DomainLoop_lastIP_counterexample :
  exists tr,
    dnspod.loopBody worldUpdateFails dnspodHandler exampleDomain "1.2.3.4" []
    = (Ok "5.6.7.8"%string, tr)
    /\ In (EvHttpDo (recordModifyRequest dnspodHandler 7 "r-16894439" "home" "5.6.7.8")
                    (inr timeoutError)) tr
    /\ providerCalls tr
       = [ domainListRequest dnspodHandler;
           recordListRequest dnspodHandler 7 "home";
           recordModifyRequest dnspodHandler 7 "r-16894439" "home" "5.6.7.8" ].
Proof.
  eexists. split; [vm_compute; reflexivity|].
  split; [in_list | vm_compute; reflexivity].
Qed.

(** On the same world, the value cached at the end of the round is the
    IP that the round resolved. *)
Lemma DomainLoop_lastIP_after_round_witness :
  exists tr2,
    godns.GetCurrentIP worldUpdateFails (dnspod.Configuration dnspodHandler)
      [ EvLog "Checking IP for domain example.com";
        EvHttpDo (domainListRequest dnspodHandler) (inl "domain-list") ]
    = (Ok ("5.6.7.8"%string, None), tr2).
Proof.
  refine (proj2 (DomainLoop_lastIP_after_round worldUpdateFails dnspodHandler exampleDomain
                   "1.2.3.4" "5.6.7.8" 7 [] _ _ _ _) _).
  - vm_compute. reflexivity.
  - vm_compute. reflexivity.
  - discriminate.
Defined.





(* ===================================================================== *)
(** * Part 21: the failure signal of the domain loop                    *)
(* ===================================================================== *)

Lemma silent_ret {A} (a : A) : silent (mret a : M A).
Proof. intros tr. apply post_ret. reflexivity. Qed.

Lemma silent_panic {A} (v : string) : silent (panic v : M A).
Proof. intros tr. apply post_panic. reflexivity. Qed.

Lemma silent_log (text : string) : silent (log text).
Proof. intros tr. apply post_log. reflexivity. Qed.

Lemma silent_emit (e : Event) : signalsSent [e] = [] -> silent (emit e).
Proof. intros H tr. apply post_emit. exact H. Qed.

Lemma silent_ask {R} (q : Trace -> R) (ev : R -> Event) :
  (forall r, signalsSent [ev r] = []) -> silent (ask q ev).
Proof. intros H tr. apply post_ask. apply H. Qed.

Lemma silent_bind {A B} (m : M A) (f : A -> M B) :
  silent m -> (forall a, silent (f a)) -> silent (m ≫= f).
Proof.
  intros Hm Hf tr. eapply post_bind_with; [apply Hm|].
  intros [a|v] evs Hs; cbn beta iota.
  - eapply post_mono; [apply Hf|]. intros o evs' Hs'. cbn beta.
    rewrite signalsSent_app, Hs, Hs'. reflexivity.
  - exact Hs.
Qed.

Lemma silent_forRange {A} (xs : list A) (body : A -> M unit) :
  (forall x, silent (body x)) -> silent (forRange xs body).
Proof.
  intros Hb. induction xs as [|x r IH]; cbn [forRange].
  - apply silent_ret.
  - apply silent_bind; [apply Hb | intros _; exact IH].
Qed.

Lemma silent_scanDomains (name : string) (domains : list JSON) (ret : Z) :
  silent (dnspod.scanDomains name domains ret).
Proof. intros tr. apply scanDomains_post. reflexivity. Qed.

Lemma silent_scanRecords (name : string) (records : list JSON) (ret ip : string) :
  silent (dnspod.scanRecords name records ret ip).
Proof. intros tr. apply scanRecords_post. reflexivity. Qed.

Create HintDb silent_db discriminated.
#[local] Hint Resolve silent_scanDomains silent_scanRecords : silent_db.

Ltac silent_step :=
  lazymatch goal with
  | |- silent (mret _) => apply silent_ret
  | |- silent (log _) => apply silent_log
  | |- silent (panic _) => apply silent_panic
  | |- silent (emit _) => apply silent_emit; reflexivity
  | |- silent (ask _ _) => apply silent_ask; intros; reflexivity
  | |- silent (mbind _ _) => apply silent_bind; [|intros]
  | |- silent (match ?x with _ => _ end) => destruct x
  end.

Ltac silent_tac :=
  repeat (cbv zeta; cbn beta; first [ solve [auto with silent_db] | silent_step ]).

Section Silent.
Context (W : World).

Lemma silent_GetHttpClient (cfg : Settings) : silent (godns.GetHttpClient W cfg).
Proof. unfold godns.GetHttpClient. silent_tac. Qed.

Lemma silent_GetIPOnline (cfg : Settings) : silent (godns.GetIPOnline W cfg).
Proof. unfold godns.GetIPOnline. silent_tac. Qed.

Lemma silent_GetIPFromInterface (cfg : Settings) : silent (godns.GetIPFromInterface W cfg).
Proof. unfold godns.GetIPFromInterface. silent_tac. Qed.

#[local] Hint Resolve silent_GetHttpClient silent_GetIPOnline silent_GetIPFromInterface
  : silent_db.

Lemma silent_GetCurrentIP (cfg : Settings) : silent (godns.GetCurrentIP W cfg).
Proof. unfold godns.GetCurrentIP. silent_tac. Qed.

Lemma silent_SendNotify (cfg : Settings) (domain currentIP : string) :
  silent (godns.SendNotify W cfg domain currentIP).
Proof. unfold godns.SendNotify. silent_tac. Qed.

#[local] Hint Resolve silent_GetCurrentIP silent_SendNotify : silent_db.

Context (handler : dnspod.Handler).

Lemma silent_PostData (url : string) (content : Values) :
  silent (dnspod.PostData W handler url content).
Proof. unfold dnspod.PostData. silent_tac. Qed.

#[local] Hint Resolve silent_PostData : silent_db.

Lemma silent_GetDomain (name : string) : silent (dnspod.GetDomain W handler name).
Proof. unfold dnspod.GetDomain. silent_tac. Qed.

Lemma silent_GetSubDomain (domainID : Z) (name : string) :
  silent (dnspod.GetSubDomain W handler domainID name).
Proof. unfold dnspod.GetSubDomain. silent_tac. Qed.

Lemma silent_UpdateIP (domainID : Z) (subDomainID subDomainName ip : string) :
  silent (dnspod.UpdateIP W handler domainID subDomainID subDomainName ip).
Proof. unfold dnspod.UpdateIP. silent_tac. Qed.

#[local] Hint Resolve silent_GetDomain silent_GetSubDomain silent_UpdateIP : silent_db.

Context (domain : Domain).

Lemma silent_subDomainBody (domainID : Z) (currentIP subDomain : string) :
  silent (dnspod.subDomainBody W handler domain domainID currentIP subDomain).
Proof. unfold dnspod.subDomainBody. silent_tac. Qed.

Lemma silent_sleepInterval : silent (dnspod.sleepInterval handler).
Proof. unfold dnspod.sleepInterval. silent_tac. Qed.

#[local] Hint Resolve silent_subDomainBody silent_sleepInterval : silent_db.

Lemma silent_loopBody (lastIP : string) :
  silent (dnspod.loopBody W handler domain lastIP).
Proof.
  unfold dnspod.loopBody. silent_tac.
  apply silent_forRange. intros x. apply silent_subDomainBody.
Qed.

Lemma silent_loopRounds (rounds : nat) (lastIP : string) :
  silent (dnspod.loopRounds W handler domain rounds lastIP).
Proof.
  revert lastIP. induction rounds as [|k IH]; intros lastIP; cbn [dnspod.loopRounds].
  - apply silent_ret.
  - apply silent_bind; [apply silent_loopBody | exact IH].
Qed.

(** The sending side of the failure channel.  A run of [DomainLoop] puts
    on the panic channel exactly one signal, carrying its own domain, when it
    ends by a recovered panic, and it is the last thing it does; as long as the
    loop is running it sends none. *)
Lemma DomainLoop_failure_signal (rounds : nat) (tr : Trace) :
  exists evs,
    snd (dnspod.DomainLoop W handler domain rounds tr) = tr ++ evs
    /\ match fst (dnspod.DomainLoop W handler domain rounds tr) with
       | dnspod.Looping _ => signalsSent evs = []
       | dnspod.Recovered _ =>
           signalsSent evs = [domain] /\ last evs = Some (EvPanicChan domain)
       end.
Proof.
  unfold dnspod.DomainLoop.
  destruct (silent_loopRounds rounds EmptyString tr) as (o & evs & Hrun & Hs).
  rewrite Hrun. destruct o as [lastIP|v]; cbn [fst snd].
  - exists evs. auto.
  - exists (evs ++ [EvLog ("Recovered in " +:+ v); EvPanicChan domain]).
    rewrite app_assoc. split; [reflexivity|]. split.
    + rewrite signalsSent_app, Hs. reflexivity.
    + rewrite last_app. reflexivity.
Qed.

End Silent.

(* ===================================================================== *)
(** * Part 22: one round of the Cloudflare domain loop                  *)
(* ===================================================================== *)

Section CloudflareRound.
Context (W : World) (handler : cloudflare.CloudflareHandler) (domain : Domain).

Lemma silent_newRequest (method url : string) (body : Body) :
  silent (cloudflare.newRequest W handler method url body).
Proof. unfold cloudflare.newRequest. silent_tac. Qed.

#[local] Hint Resolve silent_newRequest : silent_db.

Lemma silent_getDNSRecords (zoneID : string) :
  silent (cloudflare.getDNSRecords W handler zoneID).
Proof. unfold cloudflare.getDNSRecords. silent_tac. Qed.

Lemma silent_updateRecord (record : DNSRecord) (newIP : string) :
  silent (cloudflare.updateRecord W handler record newIP).
Proof. unfold cloudflare.updateRecord. silent_tac. Qed.

#[local] Hint Resolve silent_getDNSRecords silent_updateRecord : silent_db.

Lemma silent_recordBody (currentIP : string) (rec : DNSRecord) :
  silent (cloudflare.recordBody W handler domain currentIP rec).
Proof. unfold cloudflare.recordBody. silent_tac. Qed.

(** [getZone] returns, and sends exactly the zone listing. *)
Lemma getZone_post (name : string) (tr : Trace) :
  post (cloudflare.getZone W handler name) tr
       (fun o evs => (exists zoneID, o = Ok zoneID)
                     /\ providerCalls evs = [zonesRequest handler]).
Proof.
  unfold cloudflare.getZone, cloudflare.newRequest.
  fold (zonesRequest handler).
  destruct (negb (String.eqb (Socks5Proxy (cloudflare.Configuration handler)) ""));
    msteps;
    repeat match goal with
           | |- context [match ?x with _ => _ end] => destruct x; msteps
           end;
    (split; [eauto | reflexivity]).
Qed.

(** A round of the Cloudflare loop has no cached IP to compare with: every
    round sends the zone listing to the provider. *)
Lemma cloudflare_round_lists_zones (tr : Trace) :
  exists o evs rest,
    cloudflare.loopBody W handler domain tr = (o, tr ++ evs)
    /\ providerCalls evs = zonesRequest handler :: rest.
Proof.
  assert (H : post (cloudflare.loopBody W handler domain) tr
                (fun _ evs => exists rest, providerCalls evs = zonesRequest handler :: rest)).
  { unfold cloudflare.loopBody.
    eapply post_bind_with; [apply GetCurrentIP_post|].
    intros o evs [[Hc Hm] [ip ->]]. cbn beta iota.
    mstep. mstep. cbn beta. mstep. mstep. cbn beta. mstep.
    eapply post_mono; [apply getZone_post|].
    intros o evsZ [[zoneID ->] HcZ]. cbn beta iota.
    assert (Hrest : silent
              (_ ← (if negb (String.eqb zoneID "")
                    then records ← cloudflare.getDNSRecords W handler zoneID;
                         forRange records (cloudflare.recordBody W handler domain ip)
                    else log ("Failed to find zone for domain: " +:+ DomainName domain));
               _ ← log ("Going to sleep, will start next checking in "
                        +:+ strconv.FormatInt (w_INTERVAL W) +:+ " minutes...");
               emit (EvSleep (wrap64 (60000000000 * w_INTERVAL W))))).
    { silent_tac. apply silent_forRange. intros x. apply silent_recordBody. }
    eapply post_mono; [apply Hrest|].
    intros o' evs' _. cbn beta. exists (providerCalls evs'). trace_tac. }
  destruct H as (o & evs & Hrun & rest & Hrest). eauto.
Qed.

End CloudflareRound.

(* ===================================================================== *)
(** * Part 23: the Supervisor                                           *)
(* ===================================================================== *)

Lemma failures_onFailure_same (st : supervisor.State) (s : Domain) :
  supervisor.failures (supervisor.onFailure st s) (DomainName s)
  = supervisor.failures st (DomainName s) + 1.
Proof.
  unfold supervisor.onFailure.
  destruct (supervisor.failures st (DomainName s) + 1 <? godns.PanicMax);
    unfold supervisor.failures at 1; cbn [supervisor.counter];
    rewrite lookup_insert_eq; reflexivity.
Qed.

Lemma failures_onFailure_other (st : supervisor.State) (s : Domain) (d : string) :
  DomainName s <> d ->
  supervisor.failures (supervisor.onFailure st s) d = supervisor.failures st d.
Proof.
  intros Hne. unfold supervisor.onFailure.
  destruct (supervisor.failures st (DomainName s) + 1 <? godns.PanicMax);
    unfold supervisor.failures at 1 3; cbn [supervisor.counter];
    rewrite lookup_insert_ne by exact Hne; reflexivity.
Qed.

Lemma relaunches_snoc (st : supervisor.State) (acts : list supervisor.Action)
      (a : supervisor.Action) (d : string) :
  length (filter (fun x => x = supervisor.Relaunch d) (acts ++ [a]))
  = (length (filter (fun x => x = supervisor.Relaunch d) acts)
     + (if decide (a = supervisor.Relaunch d) then 1 else 0))%nat.
Proof.
  rewrite filter_app, length_app, filter_cons, filter_nil.
  destruct (decide (a = supervisor.Relaunch d)); reflexivity.
Qed.

Lemma relaunches_onFailure_same (st : supervisor.State) (s : Domain) :
  supervisor.relaunches (supervisor.onFailure st s) (DomainName s)
  = (supervisor.relaunches st (DomainName s)
     + (if (supervisor.failures st (DomainName s) + 1 <? godns.PanicMax)%Z then 1 else 0))%nat.
Proof.
  unfold supervisor.onFailure, supervisor.relaunches.
  destruct (supervisor.failures st (DomainName s) + 1 <? godns.PanicMax);
    cbn [supervisor.actions]; rewrite (relaunches_snoc st).
  - rewrite decide_True by reflexivity. reflexivity.
  - rewrite decide_False by discriminate. reflexivity.
Qed.

Lemma relaunches_onFailure_other (st : supervisor.State) (s : Domain) (d : string) :
  DomainName s <> d ->
  supervisor.relaunches (supervisor.onFailure st s) d = supervisor.relaunches st d.
Proof.
  intros Hne. unfold supervisor.onFailure, supervisor.relaunches.
  destruct (supervisor.failures st (DomainName s) + 1 <? godns.PanicMax);
    cbn [supervisor.actions]; rewrite (relaunches_snoc st);
    rewrite decide_False by congruence; lia.
Qed.

Lemma running_onFailure_same (st : supervisor.State) (s : Domain) :
  DomainName s ∈ supervisor.running (supervisor.onFailure st s)
  <-> supervisor.failures st (DomainName s) + 1 < godns.PanicMax.
Proof.
  unfold supervisor.onFailure.
  destruct (Z.ltb_spec (supervisor.failures st (DomainName s) + 1) godns.PanicMax)
    as [Hlt|Hge]; cbn [supervisor.running].
  - split; [intros _; exact Hlt | intros _; apply elem_of_union_r, elem_of_singleton; reflexivity].
  - split; [|lia]. intros Hin. apply elem_of_difference in Hin.
    destruct Hin as [_ Hnot]. contradiction Hnot. apply elem_of_singleton. reflexivity.
Qed.

Lemma running_onFailure_other (st : supervisor.State) (s : Domain) (d : string) :
  DomainName s <> d ->
  d ∈ supervisor.running (supervisor.onFailure st s) <-> d ∈ supervisor.running st.
Proof.
  intros Hne. unfold supervisor.onFailure.
  destruct (supervisor.failures st (DomainName s) + 1 <? godns.PanicMax);
    cbn [supervisor.running].
  - rewrite elem_of_union, elem_of_singleton. split; [intros [H|H]; congruence | auto].
  - rewrite elem_of_difference, elem_of_singleton. split; [tauto | split; congruence].
Qed.

Lemma receive_app (st : supervisor.State) (a b : list Domain) :
  supervisor.receive st (a ++ b) = supervisor.receive (supervisor.receive st a) b.
Proof. unfold supervisor.receive. apply fold_left_app. Qed.

Lemma signalCount_snoc (d : string) (signals : list Domain) (s : Domain) :
  signalCount d (signals ++ [s])
  = (signalCount d signals + (if decide (DomainName s = d) then 1 else 0))%nat.
Proof.
  unfold signalCount. rewrite filter_app, length_app, filter_cons, filter_nil.
  destruct (decide (DomainName s = d)); reflexivity.
Qed.

(** What the Supervisor knows of a domain after any sequence of signals:
    the counter is the number of its signals, the relaunches are that number
    capped at [PanicMax - 1], and once it has failed, it runs exactly while
    its counter is below [PanicMax]. *)
Lemma supervisor_invariant (configs signals : list Domain) (d : string) :
  let st := supervisor.run configs signals in
  supervisor.failures st d = Z.of_nat (signalCount d signals)
  /\ Z.of_nat (supervisor.relaunches st d)
     = Z.min (Z.of_nat (signalCount d signals)) (godns.PanicMax - 1)
  /\ (signalCount d signals = O ->
      (d ∈ supervisor.running st <-> In d (map DomainName configs)))
  /\ (signalCount d signals <> O ->
      (d ∈ supervisor.running st <-> Z.of_nat (signalCount d signals) < godns.PanicMax)).
Proof.
  cbv zeta. unfold supervisor.run.
  induction signals as [|s signals IH] using rev_ind.
  - cbn. repeat split; try reflexivity; try congruence.
    + change (Z.of_nat 0 `min` (godns.PanicMax - 1)) with (Z.of_nat 0). f_equal.
      induction configs as [|c cs IHc]; [reflexivity|]. cbn [map]. rewrite filter_cons.
      rewrite decide_False by discriminate. exact IHc.
    + intros Hin. apply elem_of_list_to_set in Hin. apply list_elem_of_In. exact Hin.
    + intros Hin. apply elem_of_list_to_set. apply list_elem_of_In. exact Hin.
  - destruct IH as (Hf & Hr & Hrun0 & Hrun1).
    rewrite receive_app. cbn [supervisor.receive fold_left].
    fold (supervisor.receive (supervisor.start configs) signals) in *.
    set (st := supervisor.receive (supervisor.start configs) signals) in *.
    rewrite signalCount_snoc.
    destruct (decide (DomainName s = d)) as [<-|Hne].
    + rewrite failures_onFailure_same, relaunches_onFailure_same, Hf.
      unfold godns.PanicMax in *.
      split; [lia|]. split.
      * destruct (Z.ltb_spec (Z.of_nat (signalCount (DomainName s) signals) + 1) 5); lia.
      * split; [lia|]. intros _. rewrite running_onFailure_same, Hf.
        unfold godns.PanicMax. lia.
    + rewrite failures_onFailure_other, relaunches_onFailure_other by exact Hne.
      rewrite Nat.add_0_r, running_onFailure_other by exact Hne.
      auto.
Qed.

(** C8.  Whatever the order in which failure signals arrive, a domain is
    relaunched at most [PanicMax - 1] times, hence at most [PanicMax] = 5
    times; once [PanicMax] signals for it have arrived it is not running, and
    no later signal brings it back or adds a relaunch; a sibling that sends no
    signal is running if it was configured, with counter zero and no
    relaunch. *)
Theorem supervisor_bounded_restart (configs signals : list Domain) (d : string) :
  godns.PanicMax = 5
  /\ Z.of_nat (supervisor.relaunches (supervisor.run configs signals) d)
     = Z.min (Z.of_nat (signalCount d signals)) (godns.PanicMax - 1)
  /\ Z.of_nat (supervisor.relaunches (supervisor.run configs signals) d) <= godns.PanicMax
  /\ (godns.PanicMax <= Z.of_nat (signalCount d signals) ->
      (d ∉ supervisor.running (supervisor.run configs signals))
      /\ forall later : list Domain,
           (d ∉ supervisor.running (supervisor.receive (supervisor.run configs signals) later))
           /\ supervisor.relaunches (supervisor.receive (supervisor.run configs signals) later) d
              = supervisor.relaunches (supervisor.run configs signals) d)
  /\ (forall sibling : string,
         signalCount sibling signals = O ->
         (sibling ∈ supervisor.running (supervisor.run configs signals)
          <-> In sibling (map DomainName configs))
         /\ supervisor.failures (supervisor.run configs signals) sibling = 0
         /\ supervisor.relaunches (supervisor.run configs signals) sibling = O).
Proof.
  destruct (supervisor_invariant configs signals d) as (Hf & Hr & Hrun0 & Hrun1).
  split; [reflexivity|]. split; [exact Hr|]. split; [unfold godns.PanicMax in *; lia|].
  split.
  - intros Hmax. unfold godns.PanicMax in *. split.
    + rewrite Hrun1 by lia. unfold godns.PanicMax. lia.
    + intros later.
      assert (Hrun : supervisor.receive (supervisor.run configs signals) later
                     = supervisor.run configs (signals ++ later))
        by (unfold supervisor.run; rewrite receive_app; reflexivity).
      rewrite Hrun.
      destruct (supervisor_invariant configs (signals ++ later) d) as (_ & Hr' & _ & Hrun1').
      assert (Hc : (signalCount d signals <= signalCount d (signals ++ later))%nat)
        by (unfold signalCount; rewrite filter_app, length_app; lia).
      unfold godns.PanicMax in *. split.
      * rewrite Hrun1' by lia. lia.
      * lia.
  - intros sibling Hz.
    destruct (supervisor_invariant configs signals sibling) as (Hf' & Hr' & Hrun0' & _).
    rewrite Hz in *. split; [apply Hrun0'; reflexivity|]. split; [exact Hf'|].
    unfold godns.PanicMax in *. lia.
Qed.

(** After five failure signals of one domain, that domain is abandoned
    for good. *)
Lemma supervisor_bounded_restart_witness :
  ("flaky.example.com"%string ∉ supervisor.running (supervisor.run supervisedDomains fiveFailures))
  /\ forall later : list Domain,
       ("flaky.example.com"%string
          ∉ supervisor.running
              (supervisor.receive (supervisor.run supervisedDomains fiveFailures) later))
       /\ supervisor.relaunches
            (supervisor.receive (supervisor.run supervisedDomains fiveFailures) later)
            "flaky.example.com"
          = supervisor.relaunches (supervisor.run supervisedDomains fiveFailures)
              "flaky.example.com".
Proof.
  apply (proj1 (proj2 (proj2 (proj2
           (supervisor_bounded_restart supervisedDomains fiveFailures "flaky.example.com"))))).
  vm_compute. discriminate.
Defined.

(** On the example: five failures of one domain give four relaunches and
    then the abandonment, and the sibling is still running. *)
Lemma supervisor_example :
  supervisor.actions (supervisor.run supervisedDomains fiveFailures)
  = [ supervisor.Launch "flaky.example.com"; supervisor.Launch "example.com";
      supervisor.Relaunch "flaky.example.com"; supervisor.Relaunch "flaky.example.com";
      supervisor.Relaunch "flaky.example.com"; supervisor.Relaunch "flaky.example.com";
      supervisor.Abandon "flaky.example.com" ]
  /\ supervisor.relaunches (supervisor.run supervisedDomains fiveFailures) "flaky.example.com"
     = 4%nat
  /\ "example.com"%string ∈ supervisor.running (supervisor.run supervisedDomains fiveFailures).
Proof.
  split; [vm_compute; reflexivity|]. split; [vm_compute; reflexivity|].
  destruct (supervisor_invariant supervisedDomains fiveFailures "example.com")
    as (_ & _ & Hrun & _).
  apply Hrun; [reflexivity | simpl; auto].
Qed.
